(** * Ledger and balance consistency of the savings / loan manager

    A shallow embedding of the backend of the WhatsApp balance manager:
    the two Mongoose models ([backend/models/Friend.js],
    [backend/models/Transaction.js]), the loan router
    ([backend/routes/loans.js]), the friend-level loan handlers that
    accompany it ([backend/routes/friends.js]) and the friend / debit
    routes of [backend/server.js].

    Modelling choices.
    - A collection is keyed by [_id]. The [Friend] collection is a finite
      map from ids to documents; the [Transaction] collection is the list
      of its documents in insertion order (the ledger), each carrying its
      own [_id].
    - A JavaScript Number that holds money is an integer ([Z], whole
      currency units, exact arithmetic) or [NaN]; [jsnum] is the result of
      [Number(x)] on a request field.
    - A [Date] is an integer number of milliseconds.
    - A handler is a function of the database that may answer early
      ([return res.status(..).json(..)]) and otherwise continues; writes
      made before an early answer stay in the database, as in the source,
      which has no rollback.
    - The text of a WhatsApp message is kept as the record of the values
      that are interpolated into the template.
    - The clock reads of one request are taken at one instant [now]; the
      debit routes read the clock a second time, at [later], when they
      query the day's total.
    - Store operations always succeed, so the [catch] branches that answer
      500 are not reached.
    - The server as a whole is the transition system [serve] over the
      requests that write; [reachable] collects the databases it reaches
      from the empty one. *)

From stdpp Require Import gmap strings list fin_maps.
From Stdlib Require Import ZArith Lia Sorted Permutation.

Local Open Scope Z_scope.

(* ===================================================================== *)
(** ** Data model *)
(* ===================================================================== *)

(** [enum: ['credit', 'debit', 'loan', 'repay']] of the Transaction schema. *)
Inductive TxType : Type := credit | debit | loan | repay.

Global Instance TxType_eq_dec : EqDecision TxType.
Proof. solve_decision. Defined.

(** Mongo ObjectIds. *)
Definition Id : Type := nat.

(** Milliseconds since the epoch. *)
Definition Time : Type := Z.

(** The value of [Number(x)]. *)
Inductive jsnum : Type := NaN | Num (z : Z).

(** [isNaN(n)] / [Number.isNaN(n)] on a Number. *)
Definition isNaN (n : jsnum) : bool :=
  match n with NaN => true | Num _ => false end.

(** [n <= 0]: every comparison with [NaN] is false. *)
Definition lez0 (n : jsnum) : bool :=
  match n with NaN => false | Num z => z <=? 0 end.

(** backend/models/Friend.js *)
Record Friend : Type := mkFriend {
  name : string;
  whatsapp : string;
  savedAmount : Z;
  totalBalance : Z;
  owedAmount : Z;
  lastUpdatedAt : Time
}.

(** backend/models/Transaction.js; [note] has no default, the two
    snapshots default to [null]. *)
Record Transaction : Type := mkTransaction {
  _id : Id;
  friend : Id;
  type : TxType;
  amount : Z;
  reason : string;
  note : option string;
  date : Time;
  previousBalance : option Z;
  newBalance : option Z;
  createdAt : Time
}.

(** The database: both collections and the source of fresh ObjectIds. *)
Record Db : Type := mkDb {
  Friends : gmap Id Friend;
  Transactions : list Transaction;
  nextId : Id
}.

Definition emptyDb : Db := mkDb ∅ [] 0%nat.

(** Field updates of a friend document. *)
Definition set_owed (v : Z) (t : Time) (f : Friend) : Friend :=
  mkFriend (name f) (whatsapp f) (savedAmount f) (totalBalance f) v t.

Definition set_balance (v : Z) (t : Time) (f : Friend) : Friend :=
  mkFriend (name f) (whatsapp f) (savedAmount f) v (owedAmount f) t.

(** Field updates of a transaction document. *)
Definition set_amount (v : Z) (t : Transaction) : Transaction :=
  mkTransaction (_id t) (friend t) (type t) v (reason t) (note t) (date t)
    (previousBalance t) (newBalance t) (createdAt t).

Definition set_reason (r : string) (t : Transaction) : Transaction :=
  mkTransaction (_id t) (friend t) (type t) (amount t) r (note t) (date t)
    (previousBalance t) (newBalance t) (createdAt t).

(* ===================================================================== *)
(** ** Environment and the messaging provider *)
(* ===================================================================== *)

(** [process.env] as the routes read it, the [default] of the [type] path
    of the Transaction schema (['loan'] in backend/models/Transaction.js,
    ['debit'] in the revision of the schema marked FIXED), and the offset
    of the server's local time zone in milliseconds. *)
Record Env : Type := mkEnv {
  ULTRAMSG_INSTANCE : option string;
  ULTRAMSG_INSTANCE_ID : option string;
  ULTRAMSG_TOKEN : option string;
  schemaDefaultType : TxType;
  tzOffset : Z
}.

(** Truthiness of an environment variable: unset and empty are falsy. *)
Definition truthy (v : option string) : bool :=
  match v with
  | Some s => negb (String.eqb s "")
  | None => false
  end.

(** What is interpolated into each message template. *)
Inductive MessageBody : Type :=
| ExactLoanReminder (name : string) (amount : Z) (borrowedDate : Time)
    (reason : string)
| LoanMessage (date : Time) (name : string) (amount prevOwed newOwed : Z)
    (note : string)
| DebitMessage (date : Time) (name : string) (savedAmount debited
    previousBalance todaySpent availableBalance : Z) (note : option string).

Record Outbound : Type := mkOutbound { to : string; text : MessageBody }.

(** The provider's answer to one HTTP call: a payload, or an error (a
    rejected promise of axios). *)
Inductive ProviderReply : Type :=
| Delivered (data : string)
| Errored (message : string).

Definition Provider : Type := Outbound -> ProviderReply.

(** [{ success, data | error }] as the routes report a send. *)
Inductive SendResult : Type :=
| SendOk (data : string)
| SendFailed (error : string).

(* ===================================================================== *)
(** ** Responses *)
(* ===================================================================== *)

Inductive Body : Type :=
| BError (error : string)
| BLoanCreated (loan : Transaction) (friend : option Friend)
    (sendResult : option SendResult)
| BLoanUpdated (loan : Transaction) (friend : option Friend)
| BLoanDeleted (message : string) (friend : option Friend)
| BOwed (tx : Transaction) (friend : Friend)
| BFriend (friend : Friend)
| BDebit (friend : Friend) (transaction : Transaction)
| BDebitSent (friend : Friend) (transaction : Transaction) (sent : SendResult)
| BDeleted (message : string)
| BTransactions (txs : list Transaction).

Record Response : Type := mkResponse { status : nat; body : Body }.

(** The error conditions of the specification, as the routes answer them. *)
Definition InvalidPayload : Response := mkResponse 400 (BError "Invalid payload").
Definition InvalidAmount : Response := mkResponse 400 (BError "Invalid amount").
Definition InvalidIncrement : Response := mkResponse 400 (BError "Invalid increment").
Definition InvalidDebitAmount : Response :=
  mkResponse 400 (BError "amount must be a positive number").
Definition OverRepayment : Response :=
  mkResponse 400 (BError "Repay amount greater than owed").
Definition FriendNotFound : Response := mkResponse 404 (BError "Friend not found").
Definition LoanNotFound : Response := mkResponse 404 (BError "Loan not found").
Definition NotificationUnavailable : Response :=
  mkResponse 503 (BError "UltraMsg not configured").

(* ===================================================================== *)
(** ** Handlers: state with early answers *)
(* ===================================================================== *)

(** A computation over the database that either has answered the request
    ([inl]) or carries on with a value ([inr]). The database reached so
    far is kept in both cases. *)
Definition Handler (A : Type) : Type := Db -> Db * (Response + A).

Definition ret {A} (a : A) : Handler A := fun db => (db, inr a).

Definition bind {A B} (m : Handler A) (k : A -> Handler B) : Handler B :=
  fun db =>
    match m db with
    | (db', inl r) => (db', inl r)
    | (db', inr a) => k a db'
    end.

(** [return res.status(..).json(..)] *)
Definition respond {A} (r : Response) : Handler A := fun db => (db, inl r).

(** [if (c) return res...] *)
Definition rejectIf (c : bool) (r : Response) : Handler unit :=
  if c then respond r else ret tt.

Definition reads {A} (f : Db -> A) : Handler A := fun db => (db, inr (f db)).

Definition writes (f : Db -> Db) : Handler unit := fun db => (f db, inr tt).

Notation "'let!' x ':=' m 'in' k" := (bind m (fun x => k))
  (at level 10, x name, m at level 100, k at level 200).
Notation "'do!' m 'in' k" := (bind m (fun _ => k))
  (at level 10, m at level 100, k at level 200).

(** Running a handler to its response. *)
Definition run (h : Handler Response) (db : Db) : Db * Response :=
  match h db with
  | (db', inl r) => (db', r)
  | (db', inr r) => (db', r)
  end.

(* ===================================================================== *)
(** ** Collection operations (Mongoose) *)
(* ===================================================================== *)

(** [Friend.findById(id)] *)
Definition Friend_findById (id : Id) : Handler (option Friend) :=
  reads (fun db => Friends db !! id).

(** [friend.save()] on a loaded document. *)
Definition Friend_save (id : Id) (f : Friend) : Handler unit :=
  writes (fun db => mkDb (<[id := f]> (Friends db)) (Transactions db) (nextId db)).

(** [Friend.findByIdAndUpdate(id, ..)]: no document, no change. *)
Definition Friend_findByIdAndUpdate (id : Id) (upd : Friend -> Friend)
  : Handler unit :=
  writes (fun db => mkDb (alter upd id (Friends db)) (Transactions db) (nextId db)).

(** [Friend.findByIdAndDelete(id)] *)
Definition Friend_findByIdAndDelete (id : Id) : Handler unit :=
  writes (fun db => mkDb (delete id (Friends db)) (Transactions db) (nextId db)).

Definition hasId (id : Id) (t : Transaction) : bool := bool_decide (_id t = id).

(** [Transaction.findById(id)] *)
Definition Transaction_findById (id : Id) : Handler (option Transaction) :=
  reads (fun db => List.find (hasId id) (Transactions db)).

(** [Transaction.create(doc)] / [new Transaction(doc).save()]: the document
    gets a fresh [_id] and joins the ledger. [mk] receives the id. *)
Definition Transaction_create (mk : Id -> Transaction) : Handler Transaction :=
  fun db =>
    let t := mk (nextId db) in
    (mkDb (Friends db) (Transactions db ++ [t]) (S (nextId db)), inr t).

(** [doc.save()] on a loaded transaction: replaces the stored document. *)
Definition Transaction_save (t : Transaction) : Handler unit :=
  writes (fun db =>
    mkDb (Friends db)
      (List.map (fun u => if hasId (_id t) u then t else u) (Transactions db))
      (nextId db)).

(** [doc.deleteOne()] *)
Definition Transaction_deleteOne (t : Transaction) : Handler unit :=
  writes (fun db =>
    mkDb (Friends db)
      (List.filter (fun u => negb (hasId (_id t) u)) (Transactions db))
      (nextId db)).

(** [Transaction.deleteMany({ friend: id })] *)
Definition Transaction_deleteMany (fid : Id) : Handler unit :=
  writes (fun db =>
    mkDb (Friends db)
      (List.filter (fun u => negb (bool_decide (friend u = fid))) (Transactions db))
      (nextId db)).

(** [Transaction.find({ friend: id })] *)
Definition Transaction_findByFriend (fid : Id) : Handler (list Transaction) :=
  reads (fun db => List.filter (fun u => bool_decide (friend u = fid)) (Transactions db)).

(** [.sort({ date: -1 })]: newest first, by insertion. *)
Fixpoint insertByDateDesc (t : Transaction) (l : list Transaction)
  : list Transaction :=
  match l with
  | [] => [t]
  | u :: l' => if date u <=? date t then t :: l else u :: insertByDateDesc t l'
  end.

Definition sortByDateDesc (l : list Transaction) : list Transaction :=
  foldr insertByDateDesc [] l.

(* ===================================================================== *)
(** ** backend/routes/loans.js: the recompute *)
(* ===================================================================== *)

(** [$match: { friend: friendId, type: { $in: ['loan','repay'] } }] *)
Definition matchStage (friendId : Id) (t : Transaction) : bool :=
  bool_decide (friend t = friendId)
  && (bool_decide (type t = loan) || bool_decide (type t = repay)).

(** [$sum: { $cond: [{ $eq: ["$type", ty] }, "$amount", 0] }] *)
Definition sumCond (ty : TxType) (g : list Transaction) : Z :=
  foldr (fun t acc => (if bool_decide (type t = ty) then amount t else 0) + acc) 0 g.

(** One output document of the [$group] stage. *)
Record Group : Type := mkGroup { loanSum : Z; repaySum : Z }.

(** [Loan.aggregate([...])]: the matched documents all have the same
    [friend], so grouping by ["$friend"] yields one group, or none when
    nothing matched. *)
Definition aggregate (friendId : Id) (txs : list Transaction) : list Group :=
  match List.filter (matchStage friendId) txs with
  | [] => []
  | g => [mkGroup (sumCond loan g) (sumCond repay g)]
  end.

Definition recalcOwed (now : Time) (friendId : Id) : Handler Z :=
  let! ag := reads (fun db => aggregate friendId (Transactions db)) in
  let total := match ag with g :: _ => loanSum g - repaySum g | [] => 0 end in
  do! Friend_findByIdAndUpdate friendId (set_owed total now) in
  ret total.

(** [sendWhatsAppMessage({ instanceId, token, to, body })] of
    backend/controllers/ultramsg.js; a [throw] and a rejected request are
    both an [Errored] reply. *)
Definition sendWhatsAppMessage (provider : Provider)
    (instanceId token : option string) (to : string) (body : MessageBody)
  : ProviderReply :=
  if negb (truthy instanceId) || negb (truthy token)
  then Errored "UltraMsg not configured"
  else provider (mkOutbound to body).

(* ===================================================================== *)
(** ** backend/routes/loans.js: the routes *)
(* ===================================================================== *)

(** Request body of [POST /api/loans]. [amount] is the JSON number (absent:
    [NaN], which is falsy like [undefined]). *)
Module CreateLoan.
Record body : Type := mk {
  friendId : option Id;
  amount : jsnum;
  reason : string;
  sendMessage : bool
}.
End CreateLoan.

(** [router.post('/', ...)] *)
Definition post_loans (env : Env) (provider : Provider) (now : Time)
    (b : CreateLoan.body) : Handler Response :=
  match CreateLoan.friendId b, CreateLoan.amount b with
  | None, _ => respond InvalidPayload
  | Some _, NaN => respond InvalidPayload
  | Some fid, Num amt =>
    do! rejectIf ((amt =? 0) || (amt <=? 0)) InvalidPayload in
    let! fr := Friend_findById fid in
    match fr with
    | None => respond FriendNotFound
    | Some fr =>
      let prev := owedAmount fr in
      let newBal := prev + amt in
      let! loan := Transaction_create (fun i =>
        mkTransaction i fid loan amt (CreateLoan.reason b) None now
          (Some prev) (Some newBal) now) in
      do! recalcOwed now fid in
      let! sendResult :=
        (if CreateLoan.sendMessage b then
           do! rejectIf (negb (truthy (ULTRAMSG_INSTANCE env))
                         || negb (truthy (ULTRAMSG_TOKEN env)))
                 NotificationUnavailable in
           match sendWhatsAppMessage provider (ULTRAMSG_INSTANCE env)
                   (ULTRAMSG_TOKEN env) (whatsapp fr)
                   (ExactLoanReminder (name fr) amt (createdAt loan)
                      (CreateLoan.reason b)) with
           | Errored err =>
             let! refreshedFriend := Friend_findById fid in
             respond (mkResponse 201
               (BLoanCreated loan refreshedFriend (Some (SendFailed err))))
           | Delivered data => ret (Some (SendOk data))
           end
         else ret None) in
      let! refreshedFriend := Friend_findById fid in
      ret (mkResponse 201 (BLoanCreated loan refreshedFriend sendResult))
    end
  end.

(** Request body of [PATCH /api/loans/:id]: [None] is [undefined], [Some n]
    is a field whose [Number(..)] is [n]. *)
Module AmendLoan.
Record body : Type := mk {
  amount : option jsnum;
  increment : option jsnum;
  reason : option string
}.
End AmendLoan.

(** [router.patch('/:id', ...)] *)
Definition patch_loans_id (now : Time) (id : Id) (b : AmendLoan.body)
  : Handler Response :=
  let! found := Transaction_findById id in
  match found with
  | None => respond LoanNotFound
  | Some ln =>
    let! ln1 :=
      match AmendLoan.amount b with
      | Some NaN => respond InvalidAmount
      | Some (Num newAmount) =>
        do! rejectIf (newAmount <? 0) InvalidAmount in
        ret (set_amount newAmount ln)
      | None =>
        match AmendLoan.increment b with
        | Some NaN => respond InvalidIncrement
        | Some (Num inc) => ret (set_amount (amount ln + inc) ln)
        | None => ret ln
        end
      end in
    let ln2 := match AmendLoan.reason b with
               | Some r => set_reason r ln1
               | None => ln1
               end in
    do! Transaction_save ln2 in
    do! recalcOwed now (friend ln2) in
    let! fr := Friend_findById (friend ln2) in
    ret (mkResponse 200 (BLoanUpdated ln2 fr))
  end.

(** [router.delete('/:id', ...)] *)
Definition delete_loans_id (now : Time) (id : Id) : Handler Response :=
  let! found := Transaction_findById id in
  match found with
  | None => respond LoanNotFound
  | Some ln =>
    let friendId := friend ln in
    do! Transaction_deleteOne ln in
    do! recalcOwed now friendId in
    let! fr := Friend_findById friendId in
    ret (mkResponse 200 (BLoanDeleted "Loan deleted" fr))
  end.

(* ===================================================================== *)
(** ** backend/routes/friends.js: friend-level loan handlers *)
(* ===================================================================== *)

(** Request body of [POST /:id/loan] and [POST /:id/repay]; [amount] is
    [Number(req.body.amount)]. *)
Module Owed.
Record body : Type := mk {
  amount : jsnum;
  note : option string;
  sendMessage : bool
}.
End Owed.

(** [req.body.note || dflt] *)
Definition noteOr (n : option string) (dflt : string) : string :=
  match n with
  | Some s => if String.eqb s "" then dflt else s
  | None => dflt
  end.

(** [router.post('/:id/loan', ...)]: the send is attempted only when asked
    for and configured, and its outcome is only logged. *)
Definition post_friend_loan (env : Env) (provider : Provider) (now : Time)
    (id : Id) (b : Owed.body) : Handler Response :=
  let! fr := Friend_findById id in
  match fr with
  | None => respond FriendNotFound
  | Some fr =>
    match Owed.amount b with
    | NaN => respond InvalidAmount
    | Num amt =>
      do! rejectIf (amt <=? 0) InvalidAmount in
      let nt := noteOr (Owed.note b) "Loan recorded" in
      let prevOwed := owedAmount fr in
      let newOwed := prevOwed + amt in
      let! tx := Transaction_create (fun i =>
        mkTransaction i id loan amt "" (Some nt) now
          (Some prevOwed) (Some newOwed) now) in
      let fr' := set_owed newOwed now fr in
      do! Friend_save id fr' in
      let _logged :=
        if Owed.sendMessage b && truthy (ULTRAMSG_INSTANCE_ID env)
           && truthy (ULTRAMSG_TOKEN env)
        then Some (sendWhatsAppMessage provider (ULTRAMSG_INSTANCE_ID env)
                     (ULTRAMSG_TOKEN env) (whatsapp fr)
                     (LoanMessage now (name fr) amt prevOwed newOwed nt))
        else None in
      ret (mkResponse 201 (BOwed tx fr'))
    end
  end.

(** [router.post('/:id/repay', ...)] *)
Definition post_friend_repay (now : Time) (id : Id) (b : Owed.body)
  : Handler Response :=
  let! fr := Friend_findById id in
  match fr with
  | None => respond FriendNotFound
  | Some fr =>
    match Owed.amount b with
    | NaN => respond InvalidAmount
    | Num amt =>
      do! rejectIf (amt <=? 0) InvalidAmount in
      let prevOwed := owedAmount fr in
      let newOwed := prevOwed - amt in
      do! rejectIf (newOwed <? 0) OverRepayment in
      let nt := noteOr (Owed.note b) "Repayment" in
      let! tx := Transaction_create (fun i =>
        mkTransaction i id repay amt "" (Some nt) now
          (Some prevOwed) (Some newOwed) now) in
      let fr' := set_owed newOwed now fr in
      do! Friend_save id fr' in
      ret (mkResponse 200 (BOwed tx fr'))
    end
  end.

(* ===================================================================== *)
(** ** backend/server.js: messaging helpers *)
(* ===================================================================== *)

Definition isDigit (c : Ascii.ascii) : bool :=
  let n := Ascii.nat_of_ascii c in (48 <=? n)%nat && (n <=? 57)%nat.

(** [String(to).replace(/\D/g, '')] *)
Fixpoint digitsOnly (s : string) : string :=
  match s with
  | EmptyString => EmptyString
  | String c s' => if isDigit c then String c (digitsOnly s') else digitsOnly s'
  end.

Definition normalizePhone (to : string) : string :=
  if String.eqb to "" then "" else digitsOnly to.

(** [sendUltraMsgOnce(to, bodyText)]: never throws. *)
Definition sendUltraMsgOnce (env : Env) (provider : Provider) (to : string)
    (bodyText : MessageBody) : SendResult :=
  if negb (truthy (ULTRAMSG_INSTANCE env)) || negb (truthy (ULTRAMSG_TOKEN env))
  then SendFailed "ultramsg_not_configured"
  else
    let phone := normalizePhone to in
    if String.eqb phone "" then SendFailed "invalid_phone"
    else match provider (mkOutbound phone bodyText) with
         | Delivered data => SendOk data
         | Errored detail => SendFailed detail
         end.

(** [sendUltraMsgFireAndForget(to, bodyText)]: the detached task; all that
    is observable of it is the line it logs. *)
Definition sendUltraMsgFireAndForget (env : Env) (provider : Provider)
    (to : string) (bodyText : MessageBody) : string :=
  match sendUltraMsgOnce env provider to bodyText with
  | SendOk _ => "ok"
  | SendFailed error => if String.eqb error "" then "failed" else error
  end.

(* ===================================================================== *)
(** ** backend/server.js: today's spent *)
(* ===================================================================== *)

Definition msPerDay : Z := 86400000.

(** [new Date(now).setHours(0,0,0,0)] in a zone at a fixed offset. *)
Definition startOfDay (tz : Z) (now : Time) : Time :=
  now - (now + tz) mod msPerDay.

(** [new Date(now).setHours(23,59,59,999)] *)
Definition endOfDay (tz : Z) (now : Time) : Time :=
  startOfDay tz now + (msPerDay - 1).

(** [{ friend: friendId, date: { $gte: start, $lte: end } }] *)
Definition inWindow (friendId : Id) (start end_ : Time) (t : Transaction) : bool :=
  bool_decide (friend t = friendId) && (start <=? date t) && (date t <=? end_).

Definition todaysSpent (env : Env) (now : Time) (friendId : Id) : Handler Z :=
  let start := startOfDay (tzOffset env) now in
  let end_ := endOfDay (tzOffset env) now in
  let! txs := reads (fun db => List.filter (inWindow friendId start end_)
                                 (Transactions db)) in
  ret (foldl (fun s t => s + amount t) 0 txs).

(* ===================================================================== *)
(** ** backend/server.js: friend and debit routes *)
(* ===================================================================== *)

(** Request body of [POST /api/friends]; the amounts are JSON numbers or
    absent. *)
Module NewFriend.
Record body : Type := mk {
  name : string;
  whatsapp : string;
  totalBalance : option Z;
  savedAmount : option Z
}.
End NewFriend.

(** [Number(x) || 0] on a JSON number or an absent field. *)
Definition numOr0 (x : option Z) : Z := default 0 x.

(** [app.post('/api/friends', ...)]; answers the new document, whose id is
    the one before [nextId]. *)
Definition post_friends (now : Time) (b : NewFriend.body) : Handler Response :=
  do! rejectIf (String.eqb (NewFriend.name b) "" || String.eqb (NewFriend.whatsapp b) "")
        (mkResponse 400 (BError "name and whatsapp required")) in
  let initSaved := match NewFriend.savedAmount b with
                   | Some v => v
                   | None => numOr0 (NewFriend.totalBalance b)
                   end in
  let total := if numOr0 (NewFriend.totalBalance b) =? 0 then initSaved
               else numOr0 (NewFriend.totalBalance b) in
  let fr := mkFriend (NewFriend.name b) (NewFriend.whatsapp b) initSaved total 0 now in
  do! writes (fun db => mkDb (<[nextId db := fr]> (Friends db)) (Transactions db)
                          (S (nextId db))) in
  ret (mkResponse 200 (BFriend fr)).

(** Request body of the debit routes; [amount] is [Number(req.body.amount)]. *)
Module Debit.
Record body : Type := mk { amount : jsnum; note : option string }.
End Debit.

(** A handler that also starts detached work: the response, and the lines
    the detached tasks log. *)
Definition Detaching : Type := Response * list string.

Definition runDetaching (h : Handler Detaching) (db : Db)
  : Db * Response * list string :=
  match h db with
  | (db', inl r) => (db', r, [])
  | (db', inr (r, logged)) => (db', r, logged)
  end.

(** [app.post('/api/friends/:friendId/deduct', ...)] of the revision that
    sends in the background. The document is built from [friend], [amount]
    and [note] only, so [type] is the schema default and both snapshots
    stay [null]. [now] is the clock when the transaction is built, [later]
    the clock when the day's total is queried. *)
Definition post_friends_deduct (env : Env) (provider : Provider)
    (now later : Time) (friendId : Id) (b : Debit.body) : Handler Detaching :=
  match Debit.amount b with
  | NaN => respond InvalidDebitAmount
  | Num amt =>
    do! rejectIf (amt <=? 0) InvalidDebitAmount in
    let! fr := Friend_findById friendId in
    match fr with
    | None => respond FriendNotFound
    | Some fr =>
      let previousBalance := totalBalance fr in
      let! tx := Transaction_create (fun i =>
        mkTransaction i friendId (schemaDefaultType env) amt "" (Debit.note b)
          now None None now) in
      let fr' := set_balance (previousBalance - amt) (date tx) fr in
      do! Friend_save friendId fr' in
      let! todaySpent := todaysSpent env later friendId in
      let messageText :=
        DebitMessage (date tx) (name fr') (savedAmount fr') amt previousBalance
          todaySpent (totalBalance fr') (Debit.note b) in
      let logged := sendUltraMsgFireAndForget env provider (whatsapp fr') messageText in
      ret (mkResponse 200 (BDebit fr' tx), [logged])
    end
  end.

(** The same route in the revision that formats dates in Asia/Kolkata: the
    type is given as ['debit'], and the send (there [sendUltraMsg], with
    the body of [sendUltraMsgOnce]) is awaited and reported. *)
Definition post_friends_deduct_awaited (env : Env) (provider : Provider)
    (now later : Time) (friendId : Id) (b : Debit.body) : Handler Response :=
  match Debit.amount b with
  | NaN => respond InvalidDebitAmount
  | Num amt =>
    do! rejectIf (amt <=? 0) InvalidDebitAmount in
    let! fr := Friend_findById friendId in
    match fr with
    | None => respond FriendNotFound
    | Some fr =>
      let previousBalance := totalBalance fr in
      let! tx := Transaction_create (fun i =>
        mkTransaction i friendId debit amt "" (Debit.note b) now None None now) in
      let fr' := set_balance (previousBalance - amt) (date tx) fr in
      do! Friend_save friendId fr' in
      let! todaySpent := todaysSpent env later friendId in
      let messageText :=
        DebitMessage (date tx) (name fr') (savedAmount fr') amt previousBalance
          todaySpent (totalBalance fr') (Debit.note b) in
      let sendResult := sendUltraMsgOnce env provider (whatsapp fr') messageText in
      ret (mkResponse 200 (BDebitSent fr' tx sendResult))
    end
  end.

(** [app.get('/api/friends/:id/transactions', ...)] *)
Definition get_friends_id_transactions (id : Id) : Handler Response :=
  let! txs := Transaction_findByFriend id in
  ret (mkResponse 200 (BTransactions (sortByDateDesc txs))).

(** [app.delete('/api/friends/:id', ...)] *)
Definition delete_friends_id (id : Id) : Handler Response :=
  let! fr := Friend_findById id in
  match fr with
  | None => respond FriendNotFound
  | Some _ =>
    do! Transaction_deleteMany id in
    do! Friend_findByIdAndDelete id in
    ret (mkResponse 200 (BDeleted "Friend deleted successfully"))
  end.

(* ===================================================================== *)
(** ** The specification's reading of the ledger *)
(* ===================================================================== *)

Definition sumAmounts (l : list Transaction) : Z :=
  foldr (fun t acc => amount t + acc) 0 l.

(** The transactions of friend [fid] that have type [ty]. *)
Definition ofFriend (fid : Id) (ty : TxType) (t : Transaction) : bool :=
  bool_decide (friend t = fid) && bool_decide (type t = ty).

(** [sum(amount where type=loan) - sum(amount where type=repay)] over the
    transactions of friend [fid]. *)
Definition ledgerNet (fid : Id) (txs : list Transaction) : Z :=
  sumAmounts (List.filter (ofFriend fid loan) txs)
  - sumAmounts (List.filter (ofFriend fid repay) txs).

(** The stored [owedAmount] of friend [fid] agrees with the ledger. *)
Definition owedConsistent (fid : Id) (db : Db) : Prop :=
  forall f, Friends db !! fid = Some f ->
            owedAmount f = ledgerNet fid (Transactions db).

(** The stored [owedAmount] of friend [fid], when the friend exists. *)
Definition owedOf (fid : Id) (db : Db) : option Z :=
  owedAmount <$> Friends db !! fid.

(** The sum of the friend's debits dated within [[start, end_]]. *)
Definition debitsInWindow (fid : Id) (start end_ : Time) (txs : list Transaction) : Z :=
  sumAmounts (List.filter (fun t => inWindow fid start end_ t
                                    && bool_decide (type t = debit)) txs).

(** The amount the recompute stores, from the output of the aggregation:
    [ag[0] ? ag[0].loanSum - ag[0].repaySum : 0]. *)
Definition totalOf (ag : list Group) : Z :=
  match ag with g :: _ => loanSum g - repaySum g | [] => 0 end.

(** The ledger entry that [POST /api/loans] writes for friend [fid], whose
    document before the request is [f]. *)
Definition loanEntry (db : Db) (now : Time) (fid : Id) (f : Friend)
    (amt : Z) (rsn : string) : Transaction :=
  mkTransaction (nextId db) fid loan amt rsn None now
    (Some (owedAmount f)) (Some (owedAmount f + amt)) now.

(** The friend document after the recompute that follows a change of the
    ledger to [txs]. *)
Definition recomputed (now : Time) (fid : Id) (txs : list Transaction)
    (f : Friend) : Friend :=
  set_owed (ledgerNet fid txs) now f.

(** The database once [POST /api/loans] has written its entry and run the
    recompute. *)
Definition loanRecorded (db : Db) (now : Time) (fid : Id) (f : Friend)
    (amt : Z) (rsn : string) : Db :=
  let txs := Transactions db ++ [loanEntry db now fid f amt rsn] in
  mkDb (<[fid := recomputed now fid txs f]> (Friends db)) txs (S (nextId db)).

(** The response of [POST /api/loans] on a valid request for an existing
    friend, by the outcome of the send. *)
Definition loanResponse (env : Env) (provider : Provider) (db : Db)
    (now : Time) (fid : Id) (f : Friend) (amt : Z) (rsn : string)
    (sendMessage : bool) : Response :=
  let ln := loanEntry db now fid f amt rsn in
  let txs := Transactions db ++ [ln] in
  let created := fun sendResult =>
    mkResponse 201 (BLoanCreated ln (Some (recomputed now fid txs f)) sendResult) in
  if sendMessage then
    if negb (truthy (ULTRAMSG_INSTANCE env)) || negb (truthy (ULTRAMSG_TOKEN env))
    then NotificationUnavailable
    else match provider (mkOutbound (whatsapp f)
                           (ExactLoanReminder (name f) amt now rsn)) with
         | Delivered data => created (Some (SendOk data))
         | Errored err => created (Some (SendFailed err))
         end
  else created None.

(** [if (req.body.reason !== undefined) loan.reason = req.body.reason] *)
Definition withReason (r : option string) (t : Transaction) : Transaction :=
  match r with Some x => set_reason x t | None => t end.

(** The ledger after [t'.save()]. *)
Definition replaceDoc (t' : Transaction) (txs : list Transaction)
  : list Transaction :=
  List.map (fun u => if hasId (_id t') u then t' else u) txs.

(** The ledger after the document with id [id] is deleted. *)
Definition withoutDoc (id : Id) (txs : list Transaction) : list Transaction :=
  List.filter (fun u => negb (hasId id u)) txs.

(** The database after the ledger became [txs] and the recompute ran for
    friend [fid]. *)
Definition ledgerChanged (db : Db) (now : Time) (fid : Id)
    (txs : list Transaction) : Db :=
  mkDb (alter (set_owed (ledgerNet fid txs) now) fid (Friends db)) txs (nextId db).

(** The entry that the friend-level handlers write. *)
Definition owedEntry (db : Db) (now : Time) (fid : Id) (f : Friend)
    (ty : TxType) (amt newOwed : Z) (nt : string) : Transaction :=
  mkTransaction (nextId db) fid ty amt "" (Some nt) now
    (Some (owedAmount f)) (Some newOwed) now.

(** The database after a friend-level handler wrote [tx] and stored
    [newOwed] on the friend. *)
Definition owedStored (db : Db) (now : Time) (fid : Id) (f : Friend)
    (tx : Transaction) (newOwed : Z) : Db :=
  mkDb (<[fid := set_owed newOwed now f]> (Friends db))
    (Transactions db ++ [tx]) (S (nextId db)).

(** The entry that the debit route writes. *)
Definition debitEntry (env : Env) (db : Db) (now : Time) (fid : Id)
    (amt : Z) (nt : option string) : Transaction :=
  mkTransaction (nextId db) fid (schemaDefaultType env) amt "" nt now None None now.

(** The database after the debit route wrote its entry and the balance. *)
Definition debited (env : Env) (db : Db) (now : Time) (fid : Id) (f : Friend)
    (amt : Z) (nt : option string) : Db :=
  mkDb (<[fid := set_balance (totalBalance f - amt) now f]> (Friends db))
    (Transactions db ++ [debitEntry env db now fid amt nt]) (S (nextId db)).

(* ===================================================================== *)
(** ** Scenarios *)
(* ===================================================================== *)

(** Messaging configured; the schema default of backend/models/Transaction.js. *)
Definition envLoanDefault : Env :=
  mkEnv (Some "instance1") (Some "instance1") (Some "token1") loan 0.

(** Messaging configured; the schema default of the revision marked FIXED. *)
Definition envDebitDefault : Env :=
  mkEnv (Some "instance1") (Some "instance1") (Some "token1") debit 0.

(** Messaging not configured. *)
Definition envUnconfigured : Env := mkEnv None None None loan 0.

Definition deliveringProvider : Provider := fun _ => Delivered "sent".
Definition failingProvider : Provider := fun _ => Errored "timeout of 15000ms exceeded".

(** One friend, id [0], with balance 100 and nothing owed. *)
Definition dbOneFriend : Db :=
  (run (post_friends 1000 (NewFriend.mk "A" "+911234567890" (Some 100) None))
     emptyDb).1.

(** ... who then borrowed 5 through [POST /api/loans] (entry id [1]) ... *)
Definition dbLoan5 : Db :=
  (run (post_loans envLoanDefault deliveringProvider 2000
          (CreateLoan.mk (Some 0%nat) (Num 5) "lunch" false)) dbOneFriend).1.

(** ... and whose entry was then amended by an increment of -10. *)
Definition dbNegativeOwed : Db :=
  (run (patch_loans_id 3000 1%nat (AmendLoan.mk None (Some (Num (-10))) None))
     dbLoan5).1.

(** The friend of [dbOneFriend] after a loan of 500 through
    [POST /api/loans] and, the same day, a debit of 30; the schema default
    is ['debit'], so the debit entry is typed as a debit. *)
Definition dbLoanThenDebit : Db :=
  (runDetaching
     (post_friends_deduct envDebitDefault deliveringProvider 3000 3001 0%nat
        (Debit.mk (Num 30) (Some "tea")))
     (run (post_loans envDebitDefault deliveringProvider 2000
             (CreateLoan.mk (Some 0%nat) (Num 500) "" false)) dbOneFriend).1).1.1.

(** The friend of [dbOneFriend] after a debit of 30 through the route that
    passes no [type], under the schema of backend/models/Transaction.js,
    whose default is ['loan']. *)
Definition dbDebitAsLoan : Db :=
  (runDetaching
     (post_friends_deduct envLoanDefault deliveringProvider 3000 3001 0%nat
        (Debit.mk (Num 30) (Some "tea"))) dbOneFriend).1.1.


(** The scenario of the specification: a new friend "A" with balance 0 is
    lent 500 through [POST /api/loans], repays 200 through
    [POST /:id/repay], and the loan entry is then amended to the absolute
    amount 400. *)
Definition dbScenarioFriend : Db :=
  (run (post_friends 1000 (NewFriend.mk "A" "+911234567890" (Some 0) None))
     emptyDb).1.

Definition dbScenarioLoan : Db :=
  (run (post_loans envLoanDefault deliveringProvider 2000
          (CreateLoan.mk (Some 0%nat) (Num 500) "" false)) dbScenarioFriend).1.

Definition dbScenarioRepay : Db :=
  (run (post_friend_repay 3000 0%nat (Owed.mk (Num 200) None false))
     dbScenarioLoan).1.

Definition dbScenarioAmend : Db :=
  (run (patch_loans_id 4000 1%nat (AmendLoan.mk (Some (Num 400)) None None))
     dbScenarioRepay).1.

(* ===================================================================== *)
(** ** Sorting of query results *)
(* ===================================================================== *)

(** [.sort(..)] of a query on one key, by insertion; [le x y] says that [x]
    may come before [y]. *)
Fixpoint insertBy {A : Type} (le : A -> A -> bool) (x : A) (l : list A) : list A :=
  match l with
  | [] => [x]
  | y :: l' => if le x y then x :: l else y :: insertBy le x l'
  end.

Definition sortBy {A : Type} (le : A -> A -> bool) (l : list A) : list A :=
  foldr (insertBy le) [] l.

(** [{ createdAt: -1 }] *)
Definition createdDesc (x y : Transaction) : bool := createdAt y <=? createdAt x.

(** [{ date: -1 }] *)
Definition dateDesc (x y : Transaction) : bool := date y <=? date x.

(* ===================================================================== *)
(** ** backend/routes/loans.js: the read-only routes *)
(* ===================================================================== *)

(** [router.get('/overview', ...)]: one row per friend, as
    [.select('name owedAmount whatsapp')] projects it, and the total. *)
Module Overview.
Record row : Type := mkRow {
  _id : Id;
  name : string;
  owedAmount : Z;
  whatsapp : string
}.
Record body : Type := mk { friends : list row; overall : Z }.
End Overview.

Definition overviewRow (p : Id * Friend) : Overview.row :=
  Overview.mkRow p.1 (name p.2) (owedAmount p.2) (whatsapp p.2).

(** [{ name: 1 }] *)
Definition nameAsc (x y : Overview.row) : bool :=
  String.leb (Overview.name x) (Overview.name y).

(** [Friend.find().select('name owedAmount whatsapp').sort({ name: 1 })] *)
Definition Friend_findSortedByName : Handler (list Overview.row) :=
  reads (fun db => sortBy nameAsc (overviewRow <$> map_to_list (Friends db))).

Definition get_loans_overview : Handler Overview.body :=
  let! friends := Friend_findSortedByName in
  let overall := foldl (fun acc f => acc + Overview.owedAmount f) 0 friends in
  ret (Overview.mk friends overall).

(** [router.get('/friend/:friendId', ...)] and, with the same body,
    [router.get('/:id/owed', ...)] of friends.js. *)
Module FriendLoans.
Record body : Type := mk {
  friend : Friend;
  owedAmount : Z;
  txs : list Transaction
}.
End FriendLoans.

Definition get_loans_friend (friendId : Id) : Handler FriendLoans.body :=
  let! fr := Friend_findById friendId in
  match fr with
  | None => respond FriendNotFound
  | Some fr =>
    let! txs := reads (fun db =>
      sortBy createdDesc (List.filter (matchStage friendId) (Transactions db))) in
    ret (FriendLoans.mk fr (owedAmount fr) txs)
  end.

(** The outcome of an awaited reminder once the request got as far as the
    send: [200 { ok: true, sendResult }] or
    [502 { error: 'Failed to send message', detail }]. *)
Inductive NotifyAnswer : Type :=
| NotifySent (sendResult : string)
| NotifyFailed (detail : string).

Definition notifyAnswer (r : ProviderReply) : NotifyAnswer :=
  match r with
  | Delivered data => NotifySent data
  | Errored message => NotifyFailed message
  end.

(** [router.post('/:id/notify', ...)]: [populate('friend')] leaves [null]
    when the friend no longer exists. *)
Definition post_loans_id_notify (env : Env) (provider : Provider) (id : Id)
  : Handler NotifyAnswer :=
  let! found := Transaction_findById id in
  match found with
  | None => respond LoanNotFound
  | Some ln =>
    let! fr := Friend_findById (friend ln) in
    match fr with
    | None => respond FriendNotFound
    | Some fr =>
      do! rejectIf (negb (truthy (ULTRAMSG_INSTANCE env))
                    || negb (truthy (ULTRAMSG_TOKEN env)))
            NotificationUnavailable in
      ret (notifyAnswer
             (sendWhatsAppMessage provider (ULTRAMSG_INSTANCE env)
                (ULTRAMSG_TOKEN env) (whatsapp fr)
                (ExactLoanReminder (name fr) (amount ln) (createdAt ln) (reason ln))))
    end
  end.

(** [router.post('/friend/:friendId/notify', ...)]: the summary reminder
    carries the stored owed amount, the clock and no reason. *)
Definition post_loans_friend_notify (env : Env) (provider : Provider)
    (now : Time) (friendId : Id) : Handler NotifyAnswer :=
  let! fr := Friend_findById friendId in
  match fr with
  | None => respond FriendNotFound
  | Some fr =>
    do! rejectIf (negb (truthy (ULTRAMSG_INSTANCE env))
                  || negb (truthy (ULTRAMSG_TOKEN env)))
          NotificationUnavailable in
    ret (notifyAnswer
           (sendWhatsAppMessage provider (ULTRAMSG_INSTANCE env)
              (ULTRAMSG_TOKEN env) (whatsapp fr)
              (ExactLoanReminder (name fr) (owedAmount fr) now "")))
  end.

(* ===================================================================== *)
(** ** backend/server.js: direct edits of a friend *)
(* ===================================================================== *)

Definition set_saved (v : Z) (f : Friend) : Friend :=
  mkFriend (name f) (whatsapp f) v (totalBalance f) (owedAmount f) (lastUpdatedAt f).

(** [app.patch('/api/friends/:id/saved', ...)]; [savedAmount] is a JSON
    number, or [None] when it is absent or [null]. Answers the friend of
    [{ success: true, friend }]. *)
Definition patch_friends_id_saved (id : Id) (savedAmount : option Z)
  : Handler Friend :=
  match savedAmount with
  | None => respond (mkResponse 400 (BError "savedAmount required"))
  | Some v =>
    let! fr := Friend_findById id in
    match fr with
    | None => respond FriendNotFound
    | Some fr =>
      let fr' := set_saved v fr in
      do! Friend_save id fr' in
      ret fr'
    end
  end.

(** [app.patch('/api/friends/:id/balance', ...)]; [totalBalance] is a JSON
    number. *)
Definition patch_friends_id_balance (now : Time) (id : Id) (totalBalance : Z)
  : Handler Friend :=
  let! fr := Friend_findById id in
  match fr with
  | None => respond FriendNotFound
  | Some fr =>
    let fr' := set_balance totalBalance now fr in
    do! Friend_save id fr' in
    ret fr'
  end.

(** [app.post('/api/send/:friendId', ...)] of the revision that sends in
    the background. [blank] is the runtime's [note.trim() === ""]; a note
    that is absent, empty or blank is rendered as the dash, like an absent
    note of the deduct route. The message interpolates the same values as
    the deduct route's (the footer line differs). *)
Definition post_send (blank : string -> bool) (env : Env) (provider : Provider)
    (now later : Time) (friendId : Id) (b : Debit.body) : Handler Detaching :=
  match Debit.amount b with
  | NaN => respond InvalidDebitAmount
  | Num amt =>
    do! rejectIf (amt <=? 0) InvalidDebitAmount in
    let! fr := Friend_findById friendId in
    match fr with
    | None => respond FriendNotFound
    | Some fr =>
      let previousBalance := totalBalance fr in
      let! tx := Transaction_create (fun i =>
        mkTransaction i friendId (schemaDefaultType env) amt "" (Debit.note b)
          now None None now) in
      let fr' := set_balance (previousBalance - amt) (date tx) fr in
      do! Friend_save friendId fr' in
      let fixedSaved := savedAmount fr' in
      let! todaySpent := todaysSpent env later friendId in
      let userNote := match Debit.note b with
                      | Some s => if String.eqb s "" || blank s then None else Some s
                      | None => None
                      end in
      let messageText :=
        DebitMessage (date tx) (name fr') fixedSaved amt previousBalance
          todaySpent (totalBalance fr') userNote in
      let logged := sendUltraMsgFireAndForget env provider (whatsapp fr') messageText in
      ret (mkResponse 200 (BDebit fr' tx), [logged])
    end
  end.

(* ===================================================================== *)
(** ** The server as a transition system *)
(* ===================================================================== *)

(** The requests that can write to the database, one per route. *)
Inductive Request : Type :=
| POST_friends (b : NewFriend.body)
| PATCH_friends_saved (id : Id) (savedAmount : option Z)
| PATCH_friends_balance (id : Id) (totalBalance : Z)
| POST_friends_deduct (later : Time) (friendId : Id) (b : Debit.body)
| POST_friends_deduct_awaited (later : Time) (friendId : Id) (b : Debit.body)
| POST_send (later : Time) (friendId : Id) (b : Debit.body)
| DELETE_friends (id : Id)
| POST_loans (b : CreateLoan.body)
| PATCH_loans (id : Id) (b : AmendLoan.body)
| DELETE_loans (id : Id)
| POST_friend_loan (id : Id) (b : Owed.body)
| POST_friend_repay (id : Id) (b : Owed.body).

(** The database after the server handled request [r] at time [now]. *)
Definition serve (blank : string -> bool) (env : Env) (provider : Provider)
    (now : Time) (r : Request) (db : Db) : Db :=
  match r with
  | POST_friends b => (post_friends now b db).1
  | PATCH_friends_saved id v => (patch_friends_id_saved id v db).1
  | PATCH_friends_balance id v => (patch_friends_id_balance now id v db).1
  | POST_friends_deduct later id b =>
      (post_friends_deduct env provider now later id b db).1
  | POST_friends_deduct_awaited later id b =>
      (post_friends_deduct_awaited env provider now later id b db).1
  | POST_send later id b => (post_send blank env provider now later id b db).1
  | DELETE_friends id => (delete_friends_id id db).1
  | POST_loans b => (post_loans env provider now b db).1
  | PATCH_loans id b => (patch_loans_id now id b db).1
  | DELETE_loans id => (delete_loans_id now id db).1
  | POST_friend_loan id b => (post_friend_loan env provider now id b db).1
  | POST_friend_repay id b => (post_friend_repay now id b db).1
  end.

(** The databases the server can reach from the empty one, one request
    after the other, whatever the provider answers and whenever the
    requests arrive. *)
Inductive reachable (blank : string -> bool) (env : Env) : Db -> Prop :=
| reachable_empty : reachable blank env emptyDb
| reachable_serve (db : Db) (provider : Provider) (now : Time) (r : Request) :
    reachable blank env db ->
    reachable blank env (serve blank env provider now r db).

(** Ids in use are below the next fresh one. *)
Definition idsFresh (db : Db) : Prop :=
  (forall id f, Friends db !! id = Some f -> (id < nextId db)%nat)
  /\ (forall t, In t (Transactions db) -> (_id t < nextId db)%nat).

(** No two ledger entries share an id. *)
Definition idsUnique (db : Db) : Prop :=
  List.NoDup (List.map _id (Transactions db)).

(** Every ledger entry belongs to a friend that exists. *)
Definition noOrphans (db : Db) : Prop :=
  forall t, In t (Transactions db) -> is_Some (Friends db !! friend t).

Definition wellFormed (db : Db) : Prop :=
  idsFresh db /\ idsUnique db /\ noOrphans db.



(** The sum of the stored owed amounts of all friends. *)
Definition totalOwed (db : Db) : Z :=
  foldr (fun p acc => owedAmount p.2 + acc) 0 (map_to_list (Friends db)).

(** The database after one entry [t] was appended and the document of
    friend [fid] became [f']. *)
Definition appended (db : Db) (fid : Id) (f' : Friend) (t : Transaction) : Db :=
  mkDb (<[fid := f']> (Friends db)) (Transactions db ++ [t]) (S (nextId db)).

(** The entry the debit routes write, of type [ty]. *)
Definition debitDoc (db : Db) (now : Time) (fid : Id) (ty : TxType) (amt : Z)
    (nt : option string) : Transaction :=
  mkTransaction (nextId db) fid ty amt "" nt now None None now.

(** The new document of an amendment: the old one with another amount
    and reason at most. *)
Definition amendedFrom (t t' : Transaction) : Prop :=
  exists v r, t' = withReason r (set_amount v t).

(** Every character of [s] is a decimal digit. *)
Fixpoint allDigits (s : string) : bool :=
  match s with
  | EmptyString => true
  | String c s' => isDigit c && allDigits s'
  end.

(** No character of [s] is a decimal digit. *)
Fixpoint noDigit (s : string) : bool :=
  match s with
  | EmptyString => true
  | String c s' => negb (isDigit c) && noDigit s'
  end.

(** A runtime in which no note is blank. *)
Definition neverBlank : string -> bool := fun _ => false.

(** The requests of the scenario of the specification, in order. *)
Definition scenarioRequests : list (Time * Request) :=
  [(1000, POST_friends (NewFriend.mk "A" "+911234567890" (Some 0) None));
   (2000, POST_loans (CreateLoan.mk (Some 0%nat) (Num 500) "" false));
   (3000, POST_friend_repay 0%nat (Owed.mk (Num 200) None false));
   (4000, PATCH_loans 1%nat (AmendLoan.mk (Some (Num 400)) None None))].

(** The database after the server handled the timed requests [rs] in
    order. *)
Definition serveAll (blank : string -> bool) (env : Env) (provider : Provider)
    (rs : list (Time * Request)) (db : Db) : Db :=
  foldl (fun d q => serve blank env provider q.1 q.2 d) db rs.

(** The sum of the owed amounts of the rows of an overview. *)
Definition sumRows (rows : list Overview.row) : Z :=
  foldr (fun r acc => Overview.owedAmount r + acc) 0 rows.

(** The requests that may change the [savedAmount], the [totalBalance]
    and the [owedAmount] of friend [id]. *)
Definition editsSaved (r : Request) (id : Id) : Prop :=
  match r with
  | PATCH_friends_saved i (Some _) => i = id
  | _ => False
  end.

Definition movesBalance (r : Request) (id : Id) : Prop :=
  match r with
  | PATCH_friends_balance i _ | POST_friends_deduct _ i _
  | POST_friends_deduct_awaited _ i _ | POST_send _ i _ => i = id
  | _ => False
  end.

Definition movesOwed (r : Request) : Prop :=
  match r with
  | POST_loans _ | PATCH_loans _ _ | DELETE_loans _
  | POST_friend_loan _ _ | POST_friend_repay _ _ => True
  | _ => False
  end.

(** What an amendment leaves alone in an entry. *)
Definition sameButAmountReason (t t' : Transaction) : Prop :=
  _id t' = _id t /\ friend t' = friend t /\ type t' = type t
  /\ note t' = note t /\ date t' = date t
  /\ previousBalance t' = previousBalance t /\ newBalance t' = newBalance t
  /\ createdAt t' = createdAt t.

(* ===================================================================== *)
(** * Properties *)
(* ===================================================================== *)

(* ===================================================================== *)
(** ** The recompute computes the ledger's net amount *)
(* ===================================================================== *)

Lemma sumCond_cons (ty : TxType) (t : Transaction) (g : list Transaction) :
  sumCond ty (t :: g)
  = (if bool_decide (type t = ty) then amount t else 0) + sumCond ty g.
Proof. reflexivity. Qed.

Lemma sumAmounts_cons (t : Transaction) (l : list Transaction) :
  sumAmounts (t :: l) = amount t + sumAmounts l.
Proof. reflexivity. Qed.


Lemma sumCond_matchStage (fid : Id) (ty : TxType) (txs : list Transaction) :
  ty = loan \/ ty = repay ->
  sumCond ty (List.filter (matchStage fid) txs)
  = sumAmounts (List.filter (ofFriend fid ty) txs).
Proof.
  intros Hty.
  induction txs as [|t txs IH]; [reflexivity|].
  cbn [List.filter].
  destruct (matchStage fid t) eqn:Hm, (ofFriend fid ty t) eqn:Ho;
    rewrite ?sumCond_cons, ?sumAmounts_cons, IH;
    unfold matchStage, ofFriend in Hm, Ho;
    repeat case_bool_decide; destruct Hty; subst;
    cbn in Hm, Ho; try discriminate; try congruence; lia.
Qed.

Lemma aggregate_total (fid : Id) (txs : list Transaction) :
  totalOf (aggregate fid txs) = ledgerNet fid txs.
Proof.
  unfold ledgerNet.
  rewrite <- !sumCond_matchStage by auto.
  unfold aggregate.
  destruct (List.filter (matchStage fid) txs); reflexivity.
Qed.

(** What one run of the recompute does to the database and returns. *)
Lemma recalcOwed_run (now : Time) (fid : Id) (db : Db) :
  recalcOwed now fid db
  = (mkDb (alter (set_owed (ledgerNet fid (Transactions db)) now) fid (Friends db))
       (Transactions db) (nextId db),
     inr (ledgerNet fid (Transactions db))).
Proof.
  unfold recalcOwed, bind, reads, Friend_findByIdAndUpdate, writes, ret.
  fold (totalOf (aggregate fid (Transactions db))).
  rewrite aggregate_total. reflexivity.
Qed.

(** After a recompute the stored value is the ledger's, whatever it was. *)
Lemma recalcOwed_consistent (now : Time) (fid : Id) (db : Db) :
  owedConsistent fid (recalcOwed now fid db).1.
Proof.
  rewrite recalcOwed_run. intros f. cbn.
  rewrite lookup_alter_eq.
  destruct (Friends db !! fid); cbn; [|discriminate].
  intros [= <-]. reflexivity.
Qed.

Lemma recalcOwed_owedOf (now : Time) (fid : Id) (db : Db) (f : Friend) :
  Friends db !! fid = Some f ->
  owedOf fid (recalcOwed now fid db).1 = Some (ledgerNet fid (Transactions db)).
Proof.
  intros Hf. rewrite recalcOwed_run. unfold owedOf. cbn.
  rewrite lookup_alter_eq, Hf. reflexivity.
Qed.

(* ===================================================================== *)
(** ** Create loan *)
(* ===================================================================== *)

Lemma alter_present (upd : Friend -> Friend) (id : Id) (m : gmap Id Friend)
    (f : Friend) :
  m !! id = Some f -> alter upd id m = <[id := upd f]> m.
Proof.
  intros Hf. apply map_eq. intros j.
  destruct (decide (id = j)) as [<-|Hne].
  - rewrite lookup_alter_eq, lookup_insert_eq, Hf. reflexivity.
  - rewrite lookup_alter_ne, lookup_insert_ne by done. reflexivity.
Qed.

Lemma post_loans_run (env : Env) (provider : Provider) (now : Time)
    (fid : Id) (amt : Z) (rsn : string) (sm : bool) (db : Db) (f : Friend) :
  Friends db !! fid = Some f -> 0 < amt ->
  run (post_loans env provider now (CreateLoan.mk (Some fid) (Num amt) rsn sm)) db
  = (loanRecorded db now fid f amt rsn,
     loanResponse env provider db now fid f amt rsn sm).
Proof.
  intros Hf Ha.
  unfold run, post_loans.
  cbn [CreateLoan.friendId CreateLoan.amount CreateLoan.reason CreateLoan.sendMessage].
  replace ((amt =? 0) || (amt <=? 0)) with false by lia.
  unfold rejectIf at 1.
  unfold bind at 1. unfold ret at 1.
  unfold bind at 1. unfold Friend_findById at 1, reads at 1. rewrite Hf.
  unfold bind at 1. unfold Transaction_create at 1.
  unfold bind at 1. rewrite recalcOwed_run.
  cbn [Transactions Friends nextId createdAt].
  rewrite (alter_present _ _ _ _ Hf).
  fold (loanEntry db now fid f amt rsn).
  fold (recomputed now fid (Transactions db ++ [loanEntry db now fid f amt rsn]) f).
  fold (loanRecorded db now fid f amt rsn).
  unfold loanResponse, sendWhatsAppMessage.
  assert (Hre : Friends (loanRecorded db now fid f amt rsn) !! fid
                = Some (recomputed now fid
                          (Transactions db ++ [loanEntry db now fid f amt rsn]) f)).
  { unfold loanRecorded. cbn [Friends]. apply lookup_insert_eq. }
  destruct sm.
  - unfold bind at 1. unfold bind at 1. unfold rejectIf.
    destruct (negb (truthy (ULTRAMSG_INSTANCE env))
              || negb (truthy (ULTRAMSG_TOKEN env))); [reflexivity|].
    unfold ret at 1.
    destruct (provider _) as [data|err].
    + unfold ret at 1, bind, Friend_findById, reads, ret. rewrite Hre. reflexivity.
    + unfold bind, Friend_findById, reads, respond. rewrite Hre. reflexivity.
  - unfold bind, ret, Friend_findById, reads. rewrite Hre. reflexivity.
Qed.

(* ===================================================================== *)
(** ** Amend and delete a loan entry *)
(* ===================================================================== *)

Lemma find_hasId (id : Id) (txs : list Transaction) (t : Transaction) :
  List.find (hasId id) txs = Some t -> _id t = id /\ In t txs.
Proof.
  intros H. apply List.find_some in H as [Hin Hid].
  unfold hasId in Hid. apply bool_decide_eq_true_1 in Hid. auto.
Qed.

Lemma find_replaceDoc (id : Id) (txs : list Transaction) (t t' : Transaction) :
  List.find (hasId id) txs = Some t -> _id t' = id ->
  List.find (hasId id) (replaceDoc t' txs) = Some t'.
Proof.
  intros Hfind Hid. unfold replaceDoc. rewrite Hid.
  induction txs as [|u txs IH]; [discriminate|].
  cbn [List.map List.find] in *.
  destruct (hasId id u) eqn:Hu.
  - unfold hasId at 1. rewrite Hid, bool_decide_eq_true_2; reflexivity.
  - rewrite Hu. auto.
Qed.

Lemma _id_withReason (r : option string) (t : Transaction) :
  _id (withReason r t) = _id t.
Proof. destruct r; reflexivity. Qed.

Lemma friend_withReason (r : option string) (t : Transaction) :
  friend (withReason r t) = friend t.
Proof. destruct r; reflexivity. Qed.

Lemma amount_withReason (r : option string) (t : Transaction) :
  amount (withReason r t) = amount t.
Proof. destruct r; reflexivity. Qed.

(** The tail of the amend route, once the new document [t'] is decided. *)
Lemma patch_tail (now : Time) (t' : Transaction) (db : Db) :
  (do! Transaction_save t' in
   do! recalcOwed now (friend t') in
   let! fr := Friend_findById (friend t') in
   ret (mkResponse 200 (BLoanUpdated t' fr))) db
  = (ledgerChanged db now (friend t') (replaceDoc t' (Transactions db)),
     inr (mkResponse 200 (BLoanUpdated t'
            (Friends (ledgerChanged db now (friend t')
                        (replaceDoc t' (Transactions db))) !! friend t')))).
Proof.
  unfold bind at 1. unfold Transaction_save, writes.
  unfold bind at 1. rewrite recalcOwed_run.
  reflexivity.
Qed.

Lemma patch_increment_run (now : Time) (id : Id) (db : Db) (t : Transaction)
    (inc : Z) (r : option string) :
  List.find (hasId id) (Transactions db) = Some t ->
  let t' := withReason r (set_amount (amount t + inc) t) in
  let db' := ledgerChanged db now (friend t) (replaceDoc t' (Transactions db)) in
  run (patch_loans_id now id (AmendLoan.mk None (Some (Num inc)) r)) db
  = (db', mkResponse 200 (BLoanUpdated t' (Friends db' !! friend t))).
Proof.
  intros Hfind t' db'.
  unfold run, patch_loans_id.
  unfold bind at 1. unfold Transaction_findById, reads. rewrite Hfind.
  cbn [AmendLoan.amount AmendLoan.increment AmendLoan.reason].
  unfold bind at 1. unfold ret at 1.
  fold (withReason r (set_amount (amount t + inc) t)). fold t'.
  rewrite patch_tail.
  subst db'. replace (friend t') with (friend t)
    by (subst t'; rewrite friend_withReason; reflexivity).
  reflexivity.
Qed.

Lemma patch_amount_run (now : Time) (id : Id) (db : Db) (t : Transaction)
    (v : Z) (inc : option jsnum) (r : option string) :
  List.find (hasId id) (Transactions db) = Some t -> 0 <= v ->
  let t' := withReason r (set_amount v t) in
  let db' := ledgerChanged db now (friend t) (replaceDoc t' (Transactions db)) in
  run (patch_loans_id now id (AmendLoan.mk (Some (Num v)) inc r)) db
  = (db', mkResponse 200 (BLoanUpdated t' (Friends db' !! friend t))).
Proof.
  intros Hfind Hv t' db'.
  unfold run, patch_loans_id.
  unfold bind at 1. unfold Transaction_findById, reads. rewrite Hfind.
  cbn [AmendLoan.amount AmendLoan.increment AmendLoan.reason].
  replace (v <? 0) with false by lia.
  unfold rejectIf.
  unfold bind at 1. unfold bind at 1. unfold ret at 1. unfold ret at 1.
  fold (withReason r (set_amount v t)). fold t'.
  rewrite patch_tail.
  subst db'. replace (friend t') with (friend t)
    by (subst t'; rewrite friend_withReason; reflexivity).
  reflexivity.
Qed.

Lemma delete_loans_run (now : Time) (id : Id) (db : Db) (t : Transaction) :
  List.find (hasId id) (Transactions db) = Some t ->
  let db' := ledgerChanged db now (friend t) (withoutDoc id (Transactions db)) in
  run (delete_loans_id now id) db
  = (db', mkResponse 200 (BLoanDeleted "Loan deleted" (Friends db' !! friend t))).
Proof.
  intros Hfind db'.
  destruct (find_hasId _ _ _ Hfind) as [Hid _].
  unfold run, delete_loans_id.
  unfold bind at 1. unfold Transaction_findById, reads. rewrite Hfind.
  unfold bind at 1. unfold Transaction_deleteOne, writes.
  unfold bind at 1. rewrite recalcOwed_run.
  rewrite Hid. reflexivity.
Qed.

(** After the recompute for [fid] over the ledger [txs], the stored value
    of an existing friend is the ledger's net amount. *)
Lemma ledgerChanged_owedOf (db : Db) (now : Time) (fid : Id)
    (txs : list Transaction) (f : Friend) :
  Friends db !! fid = Some f ->
  owedOf fid (ledgerChanged db now fid txs) = Some (ledgerNet fid txs).
Proof.
  intros Hf. unfold owedOf, ledgerChanged. cbn [Friends].
  rewrite lookup_alter_eq, Hf. reflexivity.
Qed.

Lemma ledgerChanged_consistent (db : Db) (now : Time) (fid : Id)
    (txs : list Transaction) :
  owedConsistent fid (ledgerChanged db now fid txs).
Proof.
  intros f. unfold ledgerChanged. cbn [Friends Transactions].
  rewrite lookup_alter_eq.
  destruct (Friends db !! fid); cbn; [|discriminate].
  intros [= <-]. reflexivity.
Qed.

(* ===================================================================== *)
(** ** Friend-level loan and repayment *)
(* ===================================================================== *)

Lemma post_friend_loan_run (env : Env) (provider : Provider) (now : Time)
    (id : Id) (amt : Z) (nt : option string) (sm : bool) (db : Db) (f : Friend) :
  Friends db !! id = Some f -> 0 < amt ->
  let newOwed := owedAmount f + amt in
  let tx := owedEntry db now id f loan amt newOwed (noteOr nt "Loan recorded") in
  run (post_friend_loan env provider now id (Owed.mk (Num amt) nt sm)) db
  = (owedStored db now id f tx newOwed,
     mkResponse 201 (BOwed tx (set_owed newOwed now f))).
Proof.
  intros Hf Ha newOwed tx.
  unfold run, post_friend_loan.
  unfold bind at 1. unfold Friend_findById, reads. rewrite Hf.
  cbn [Owed.amount Owed.note Owed.sendMessage].
  replace (amt <=? 0) with false by lia.
  unfold rejectIf. unfold bind at 1. unfold ret at 1.
  unfold bind at 1. unfold Transaction_create at 1.
  unfold bind at 1. unfold Friend_save, writes.
  reflexivity.
Qed.

(** The repayment route on an existing friend, by the three ways its
    guards go. *)
Lemma post_friend_repay_run (now : Time) (id : Id) (amt : jsnum)
    (nt : option string) (sm : bool) (db : Db) (f : Friend) :
  Friends db !! id = Some f ->
  run (post_friend_repay now id (Owed.mk amt nt sm)) db
  = match amt with
    | NaN => (db, InvalidAmount)
    | Num a =>
      if a <=? 0 then (db, InvalidAmount)
      else if owedAmount f - a <? 0 then (db, OverRepayment)
      else
        let newOwed := owedAmount f - a in
        let tx := owedEntry db now id f repay a newOwed (noteOr nt "Repayment") in
        (owedStored db now id f tx newOwed,
         mkResponse 200 (BOwed tx (set_owed newOwed now f)))
    end.
Proof.
  intros Hf.
  unfold run, post_friend_repay.
  unfold bind at 1. unfold Friend_findById, reads. rewrite Hf.
  cbn [Owed.amount Owed.note Owed.sendMessage].
  destruct amt as [|a]; [reflexivity|].
  unfold rejectIf at 1. unfold bind at 1.
  destruct (a <=? 0); [reflexivity|]. unfold ret at 1.
  unfold rejectIf at 1. unfold bind at 1.
  destruct (owedAmount f - a <? 0); [reflexivity|]. unfold ret at 1.
  unfold bind at 1. unfold Transaction_create at 1.
  unfold bind at 1. unfold Friend_save, writes.
  reflexivity.
Qed.

(* ===================================================================== *)
(** ** Debit *)
(* ===================================================================== *)

Lemma todaysSpent_run (env : Env) (now : Time) (fid : Id) (db : Db) :
  todaysSpent env now fid db
  = (db, inr (foldl (fun s t => s + amount t) 0
                (List.filter (inWindow fid (startOfDay (tzOffset env) now)
                                (endOfDay (tzOffset env) now))
                   (Transactions db)))).
Proof. reflexivity. Qed.

(** A left fold that adds amounts is the sum of the amounts. *)
Lemma foldl_amounts (acc : Z) (l : list Transaction) :
  foldl (fun s t => s + amount t) acc l = acc + sumAmounts l.
Proof.
  revert acc. induction l as [|t l IH]; intros acc; cbn [foldl].
  - cbn. lia.
  - rewrite IH, sumAmounts_cons. lia.
Qed.

(** The debit route on a positive amount for an existing friend. *)
Lemma post_friends_deduct_run (env : Env) (provider : Provider)
    (now later : Time) (fid : Id) (amt : Z) (nt : option string) (db : Db)
    (f : Friend) :
  Friends db !! fid = Some f -> 0 < amt ->
  let db' := debited env db now fid f amt nt in
  let tx := debitEntry env db now fid amt nt in
  let f' := set_balance (totalBalance f - amt) now f in
  exists logged,
    runDetaching (post_friends_deduct env provider now later fid (Debit.mk (Num amt) nt)) db
    = (db', mkResponse 200 (BDebit f' tx), [logged]).
Proof.
  intros Hf Ha db' tx f'.
  unfold runDetaching, post_friends_deduct.
  cbn [Debit.amount Debit.note].
  replace (amt <=? 0) with false by lia.
  unfold rejectIf. unfold bind at 1. unfold ret at 1.
  unfold bind at 1. unfold Friend_findById, reads. rewrite Hf.
  unfold bind at 1. unfold Transaction_create at 1.
  unfold bind at 1. unfold Friend_save, writes.
  unfold bind at 1. rewrite todaysSpent_run.
  unfold ret. eexists. reflexivity.
Qed.

(* ===================================================================== *)
(** ** Delete friend *)
(* ===================================================================== *)

Lemma delete_friends_run (id : Id) (db : Db) (f : Friend) :
  Friends db !! id = Some f ->
  run (delete_friends_id id) db
  = (mkDb (delete id (Friends db))
       (List.filter (fun u => negb (bool_decide (friend u = id))) (Transactions db))
       (nextId db),
     mkResponse 200 (BDeleted "Friend deleted successfully")).
Proof.
  intros Hf. unfold run, delete_friends_id.
  unfold bind at 1. unfold Friend_findById, reads. rewrite Hf.
  reflexivity.
Qed.

(* ===================================================================== *)
(** ** Claims on deleting and amending loan entries *)
(* ===================================================================== *)

Lemma filter_withoutDoc_nil (fid id : Id) (ty : TxType) (txs : list Transaction) :
  ty = loan \/ ty = repay ->
  (forall u, In u txs -> matchStage fid u = true -> _id u = id) ->
  List.filter (ofFriend fid ty) (withoutDoc id txs) = [].
Proof.
  intros Hty Honly. unfold withoutDoc.
  induction txs as [|u txs IH]; [reflexivity|].
  cbn [List.filter].
  assert (IH' : List.filter (ofFriend fid ty)
                  (List.filter (fun u => negb (hasId id u)) txs) = []).
  { apply IH. intros v Hv. apply Honly. right. exact Hv. }
  destruct (hasId id u) eqn:Hu; cbn [negb]; [exact IH'|].
  cbn [List.filter]. rewrite IH'.
  destruct (ofFriend fid ty u) eqn:Ho; [|reflexivity].
  exfalso.
  assert (Hm : matchStage fid u = true).
  { unfold ofFriend in Ho. unfold matchStage.
    apply andb_prop in Ho as [-> Hty']. apply bool_decide_eq_true_1 in Hty'.
    destruct Hty as [-> | ->]; rewrite Hty';
      rewrite ?bool_decide_eq_true_2 by reflexivity;
      rewrite ?orb_true_r; reflexivity. }
  specialize (Honly u (or_introl eq_refl) Hm).
  unfold hasId in Hu. apply bool_decide_eq_false_1 in Hu. contradiction.
Qed.

(** C8. Deleting a ledger entry through [DELETE /api/loans/:id] leaves the
    ledger without that entry, and the recompute that follows stores for
    the owning friend exactly what a recompute over the ledger without the
    entry yields; when the entry was the friend's only loan/repay entry,
    the stored amount is 0. *)
Theorem C8_delete_then_recompute (now : Time) (id : Id) (db : Db)
    (t : Transaction) (f : Friend) :
  List.find (hasId id) (Transactions db) = Some t ->
  Friends db !! friend t = Some f ->
  let res := run (delete_loans_id now id) db in
  Transactions res.1 = withoutDoc id (Transactions db)
  /\ (forall u, In u (Transactions res.1) -> _id u <> id)
  /\ owedOf (friend t) res.1
     = Some (ledgerNet (friend t) (withoutDoc id (Transactions db)))
  /\ (forall now0 db0, Transactions db0 = withoutDoc id (Transactions db) ->
        (recalcOwed now0 (friend t) db0).2
        = inr (ledgerNet (friend t) (withoutDoc id (Transactions db))))
  /\ ((forall u, In u (Transactions db) -> matchStage (friend t) u = true ->
                 _id u = id) ->
      owedOf (friend t) res.1 = Some 0).
Proof.
  intros Hfind Hf res. subst res.
  rewrite (delete_loans_run _ _ _ _ Hfind). cbn [fst].
  assert (Ho := ledgerChanged_owedOf db now (friend t)
                  (withoutDoc id (Transactions db)) f Hf).
  repeat split.
  - cbn [ledgerChanged Transactions]. unfold withoutDoc.
    intros u Hu. apply List.filter_In in Hu as [_ Hu].
    apply negb_true_iff in Hu. unfold hasId in Hu.
    apply bool_decide_eq_false_1 in Hu. exact Hu.
  - exact Ho.
  - intros now0 db0 Hdb0. rewrite recalcOwed_run, Hdb0. reflexivity.
  - intros Honly. rewrite Ho. f_equal. unfold ledgerNet.
    rewrite !(filter_withoutDoc_nil _ _ _ _) by auto. reflexivity.
Qed.

(** C10. [PATCH /api/loans/:id] with an [increment] and no [amount] adds the
    increment to the entry's amount without any bound: it answers 200, the
    stored amount is [a + i], and the recompute stores the net amount of
    the amended ledger; entry and owed amount do become negative (the
    friend who borrowed 5 and whose entry is incremented by -10 owes -5).
    When [amount] is supplied, the answer and the database do not depend
    on [increment]. *)
Theorem C10_amend_increment_unbounded (now : Time) (id : Id) (db : Db)
    (t : Transaction) (inc : Z) (r : option string) :
  List.find (hasId id) (Transactions db) = Some t ->
  let res := run (patch_loans_id now id (AmendLoan.mk None (Some (Num inc)) r)) db in
  status res.2 = 200%nat
  /\ (exists t', List.find (hasId id) (Transactions res.1) = Some t'
                 /\ amount t' = amount t + inc
                 /\ (inc < - amount t -> amount t' < 0))
  /\ (forall f, Friends db !! friend t = Some f ->
        owedOf (friend t) res.1 = Some (ledgerNet (friend t) (Transactions res.1)))
  /\ (exists t', List.find (hasId 1%nat) (Transactions dbNegativeOwed) = Some t'
                 /\ amount t' = -5 /\ owedOf 0%nat dbNegativeOwed = Some (-5))
  /\ (forall (v : jsnum) (inc' : option jsnum),
        run (patch_loans_id now id (AmendLoan.mk (Some v) inc' r)) db
        = run (patch_loans_id now id (AmendLoan.mk (Some v) None r)) db).
Proof.
  intros Hfind res. subst res.
  rewrite (patch_increment_run _ _ _ _ _ _ Hfind). cbn [fst snd status].
  destruct (find_hasId _ _ _ Hfind) as [Hid _].
  split; [reflexivity|]. split.
  { eexists. split.
    - cbn [ledgerChanged Transactions].
      apply (find_replaceDoc id _ t); [exact Hfind|].
      rewrite _id_withReason. exact Hid.
    - rewrite amount_withReason. cbn [set_amount amount]. split; [reflexivity|lia]. }
  split.
  { intros f Hf. rewrite (ledgerChanged_owedOf _ _ _ _ _ Hf). reflexivity. }
  split.
  { eexists. split; [vm_compute; reflexivity|]. split; reflexivity. }
  intros v inc'. reflexivity.
Qed.

(** C10 at the friend of [dbLoan5], who borrowed 5: an increment of -10 on
    the entry is accepted and the friend then owes -5. *)
Lemma C10_amend_increment_unbounded_witness :
  List.find (hasId 1%nat) (Transactions dbLoan5)
  = Some (mkTransaction 1%nat 0%nat loan 5 "lunch" None 2000 (Some 0) (Some 5) 2000)
  /\ status (run (patch_loans_id 3000 1%nat
                    (AmendLoan.mk None (Some (Num (-10))) None)) dbLoan5).2
     = 200%nat
  /\ owedOf 0%nat
       (run (patch_loans_id 3000 1%nat
               (AmendLoan.mk None (Some (Num (-10))) None)) dbLoan5).1
     = Some (-5).
Proof.
  pose proof (C10_amend_increment_unbounded 3000 1%nat dbLoan5
    (mkTransaction 1%nat 0%nat loan 5 "lunch" None 2000 (Some 0) (Some 5) 2000)
    (-10) None eq_refl) as H.
  cbv zeta in H. destruct H as (Hs & _ & Ho & _).
  split; [reflexivity|].
  split; [exact Hs|].
  refine (eq_trans (Ho (mkFriend "A" "+911234567890" 100 100 5 2000) eq_refl) _).
  vm_compute. reflexivity.
Defined.

(* ===================================================================== *)
(** ** Claims on deleting a friend *)
(* ===================================================================== *)

(** After the cascade no transaction of the friend is left. *)
Lemma deleteMany_none (id : Id) (txs : list Transaction) :
  List.filter (fun u => bool_decide (friend u = id))
    (List.filter (fun u => negb (bool_decide (friend u = id))) txs) = [].
Proof.
  induction txs as [|u txs IH]; [reflexivity|].
  cbn [List.filter].
  destruct (bool_decide (friend u = id)) eqn:Hu; cbn [negb]; [exact IH|].
  cbn [List.filter]. rewrite Hu. exact IH.
Qed.

(** C9. [DELETE /api/friends/:id] on an existing friend removes the friend
    and every transaction of that friend: afterwards the friend does not
    resolve, the transaction query for that id answers the empty list, no
    stored transaction refers to the friend, and the transactions of the
    other friends are all still there. *)
Theorem C9_delete_friend_cascades (id : Id) (db : Db) (f : Friend) :
  Friends db !! id = Some f ->
  let res := run (delete_friends_id id) db in
  status res.2 = 200%nat
  /\ Friends res.1 !! id = None
  /\ run (get_friends_id_transactions id) res.1
     = (res.1, mkResponse 200 (BTransactions []))
  /\ (forall u, In u (Transactions res.1) -> friend u <> id)
  /\ (forall u, In u (Transactions db) -> friend u <> id ->
                In u (Transactions res.1)).
Proof.
  intros Hf res. subst res.
  rewrite (delete_friends_run _ _ _ Hf). cbn [fst snd status].
  split; [reflexivity|]. split.
  { cbn [Friends]. apply lookup_delete_eq. }
  split.
  { unfold run, get_friends_id_transactions, bind, Transaction_findByFriend,
      reads, ret.
    cbn [Transactions]. rewrite deleteMany_none. reflexivity. }
  split.
  - intros u Hu. cbn [Transactions] in Hu.
    apply List.filter_In in Hu as [_ Hu].
    apply negb_true_iff, bool_decide_eq_false_1 in Hu. exact Hu.
  - intros u Hu Hne. cbn [Transactions].
    apply List.filter_In. split; [exact Hu|].
    apply negb_true_iff, bool_decide_eq_false_2. exact Hne.
Qed.

(** C9 at the friend of [dbNegativeOwed]: after the delete the transaction
    query answers the empty list. *)
Lemma C9_delete_friend_cascades_witness :
  Friends dbNegativeOwed !! 0%nat
  = Some (mkFriend "A" "+911234567890" 100 100 (-5) 3000)
  /\ run (get_friends_id_transactions 0%nat)
       (run (delete_friends_id 0%nat) dbNegativeOwed).1
     = ((run (delete_friends_id 0%nat) dbNegativeOwed).1,
        mkResponse 200 (BTransactions [])).
Proof.
  split; [reflexivity|].
  exact (proj1 (proj2 (proj2
    (C9_delete_friend_cascades 0%nat dbNegativeOwed
       (mkFriend "A" "+911234567890" 100 100 (-5) 3000) eq_refl)))).
Defined.

(** C8 at the friend of [dbLoan5], whose only entry is the loan of 5:
    deleting it brings the owed amount from 5 to 0. *)
Lemma C8_delete_then_recompute_witness :
  List.find (hasId 1%nat) (Transactions dbLoan5)
  = Some (mkTransaction 1%nat 0%nat loan 5 "lunch" None 2000 (Some 0) (Some 5) 2000)
  /\ owedOf 0%nat dbLoan5 = Some 5
  /\ owedOf 0%nat (run (delete_loans_id 4000 1%nat) dbLoan5).1 = Some 0.
Proof.
  split; [reflexivity|]. split; [reflexivity|].
  refine (proj2 (proj2 (proj2 (proj2
    (C8_delete_then_recompute 4000 1%nat dbLoan5
       (mkTransaction 1%nat 0%nat loan 5 "lunch" None 2000 (Some 0) (Some 5) 2000)
       (mkFriend "A" "+911234567890" 100 100 5 2000) eq_refl eq_refl)))) _).
  intros u Hu Hm. cbn in Hu. destruct Hu as [<- | []]. reflexivity.
Defined.

(* ===================================================================== *)
(** ** Claims on notification failures *)
(* ===================================================================== *)

(** What [POST /api/loans] persists does not depend on the notify flag. *)
Lemma loanRecorded_owedOf (db : Db) (now : Time) (fid : Id) (f : Friend)
    (amt : Z) (rsn : string) :
  owedOf fid (loanRecorded db now fid f amt rsn)
  = Some (ledgerNet fid (Transactions (loanRecorded db now fid f amt rsn))).
Proof.
  unfold owedOf, loanRecorded. cbn [Friends Transactions].
  rewrite lookup_insert_eq. reflexivity.
Qed.

(** C7. When [POST /api/loans] is asked to notify while the instance id or
    the token is not configured, the caller gets the 503 answer
    "UltraMsg not configured"; by then the loan entry has been appended
    and the recompute has stored the ledger's net amount, and the database
    is the one the same request without the notify flag produces. *)
Theorem C7_notify_unconfigured_after_write (env : Env) (provider : Provider)
    (now : Time) (fid : Id) (f : Friend) (amt : Z) (rsn : string) (db : Db) :
  Friends db !! fid = Some f -> 0 < amt ->
  truthy (ULTRAMSG_INSTANCE env) = false \/ truthy (ULTRAMSG_TOKEN env) = false ->
  let notified :=
    run (post_loans env provider now (CreateLoan.mk (Some fid) (Num amt) rsn true)) db in
  let silent :=
    run (post_loans env provider now (CreateLoan.mk (Some fid) (Num amt) rsn false)) db in
  notified.2 = NotificationUnavailable
  /\ status notified.2 = 503%nat
  /\ Transactions notified.1 = Transactions db ++ [loanEntry db now fid f amt rsn]
  /\ owedOf fid notified.1 = Some (ledgerNet fid (Transactions notified.1))
  /\ notified.1 = silent.1.
Proof.
  intros Hf Ha Hcfg notified silent. subst notified silent.
  rewrite !(post_loans_run _ _ _ _ _ _ _ _ _ Hf Ha). cbn [fst snd].
  assert (Hr : loanResponse env provider db now fid f amt rsn true
               = NotificationUnavailable).
  { unfold loanResponse. destruct Hcfg as [-> | ->];
      rewrite ?orb_true_r; reflexivity. }
  rewrite Hr. repeat split.
  apply loanRecorded_owedOf.
Qed.

(** C7 at the friend of [dbOneFriend] with nothing configured: the answer
    is 503 and the friend owes the 500 just lent. *)
Lemma C7_notify_unconfigured_after_write_witness :
  Friends dbOneFriend !! 0%nat = Some (mkFriend "A" "+911234567890" 100 100 0 1000)
  /\ 0 < 500
  /\ truthy (ULTRAMSG_INSTANCE envUnconfigured) = false
  /\ (run (post_loans envUnconfigured deliveringProvider 2000
             (CreateLoan.mk (Some 0%nat) (Num 500) "" true)) dbOneFriend).2
     = NotificationUnavailable
  /\ owedOf 0%nat
       (run (post_loans envUnconfigured deliveringProvider 2000
               (CreateLoan.mk (Some 0%nat) (Num 500) "" true)) dbOneFriend).1
     = Some 500.
Proof.
  pose proof (C7_notify_unconfigured_after_write envUnconfigured
    deliveringProvider 2000 0%nat (mkFriend "A" "+911234567890" 100 100 0 1000)
    500 "" dbOneFriend eq_refl eq_refl (or_introl eq_refl)) as H.
  cbv zeta in H. destruct H as (Hr & _ & _ & Ho & _).
  split; [reflexivity|]. split; [reflexivity|]. split; [reflexivity|].
  split; [exact Hr|]. refine (eq_trans Ho _). vm_compute. reflexivity.
Defined.

(** The database after [POST /api/loans] is the same for every provider. *)
Lemma post_loans_provider_irrelevant (env : Env) (p1 p2 : Provider)
    (now : Time) (b : CreateLoan.body) (db : Db) :
  (run (post_loans env p1 now b) db).1 = (run (post_loans env p2 now b) db).1.
Proof.
  destruct b as [[fid|] [|amt] rsn sm]; try reflexivity.
  destruct (Z_lt_le_dec 0 amt) as [Ha|Ha].
  - destruct (Friends db !! fid) as [f|] eqn:Hf.
    + rewrite !(post_loans_run _ _ _ _ _ _ _ _ _ Hf Ha). reflexivity.
    + unfold run, post_loans.
      cbn [CreateLoan.friendId CreateLoan.amount].
      replace ((amt =? 0) || (amt <=? 0)) with false by lia.
      unfold rejectIf, bind, ret, Friend_findById, reads. rewrite Hf. reflexivity.
  - unfold run, post_loans.
    cbn [CreateLoan.friendId CreateLoan.amount].
    replace ((amt =? 0) || (amt <=? 0)) with true by lia.
    reflexivity.
Qed.

(** The debit route rejects before writing. *)
Lemma post_friends_deduct_invalid (env : Env) (provider : Provider)
    (now later : Time) (fid : Id) (b : Debit.body) (db : Db) :
  isNaN (Debit.amount b) || lez0 (Debit.amount b) = true ->
  runDetaching (post_friends_deduct env provider now later fid b) db
  = (db, InvalidDebitAmount, []).
Proof.
  intros Hbad. destruct b as [[|amt] nt]; [reflexivity|].
  cbn in Hbad. unfold runDetaching, post_friends_deduct.
  cbn [Debit.amount]. rewrite Hbad. reflexivity.
Qed.

Lemma post_friends_deduct_missing (env : Env) (provider : Provider)
    (now later : Time) (fid : Id) (b : Debit.body) (db : Db) :
  isNaN (Debit.amount b) || lez0 (Debit.amount b) = false ->
  Friends db !! fid = None ->
  runDetaching (post_friends_deduct env provider now later fid b) db
  = (db, FriendNotFound, []).
Proof.
  intros Hok Hf. destruct b as [[|amt] nt]; [discriminate|].
  cbn in Hok. unfold runDetaching, post_friends_deduct.
  cbn [Debit.amount]. rewrite Hok.
  unfold rejectIf, bind, ret, Friend_findById, reads. rewrite Hf. reflexivity.
Qed.

Lemma lez0_false_pos (amt : Z) : lez0 (Num amt) = false -> 0 < amt.
Proof. cbn. lia. Qed.

(** Database and response of the debit route are the same for every
    provider. *)
Lemma post_friends_deduct_provider_irrelevant (env : Env) (p1 p2 : Provider)
    (now later : Time) (fid : Id) (b : Debit.body) (db : Db) :
  (runDetaching (post_friends_deduct env p1 now later fid b) db).1
  = (runDetaching (post_friends_deduct env p2 now later fid b) db).1.
Proof.
  destruct (isNaN (Debit.amount b) || lez0 (Debit.amount b)) eqn:Hv.
  - rewrite !post_friends_deduct_invalid by exact Hv. reflexivity.
  - destruct (Friends db !! fid) as [f|] eqn:Hf.
    + destruct b as [[|amt] nt]; [discriminate|].
      cbn [Debit.amount isNaN orb] in Hv. apply lez0_false_pos in Hv.
      destruct (post_friends_deduct_run env p1 now later fid amt nt db f Hf Hv)
        as [l1 ->].
      destruct (post_friends_deduct_run env p2 now later fid amt nt db f Hf Hv)
        as [l2 ->].
      reflexivity.
    + rewrite !post_friends_deduct_missing by assumption. reflexivity.
Qed.

(** The friend-level loan handler answers and persists the same for every
    provider: a failed send is only logged. *)
Lemma post_friend_loan_provider_irrelevant (env : Env) (p1 p2 : Provider)
    (now : Time) (id : Id) (b : Owed.body) (db : Db) :
  run (post_friend_loan env p1 now id b) db
  = run (post_friend_loan env p2 now id b) db.
Proof. reflexivity. Qed.

Lemma post_friends_deduct_awaited_run (env : Env) (provider : Provider)
    (now later : Time) (fid : Id) (amt : Z) (nt : option string) (db : Db)
    (f : Friend) :
  Friends db !! fid = Some f -> 0 < amt ->
  exists resp,
    run (post_friends_deduct_awaited env provider now later fid (Debit.mk (Num amt) nt)) db
    = (mkDb (<[fid := set_balance (totalBalance f - amt) now f]> (Friends db))
         (Transactions db
          ++ [mkTransaction (nextId db) fid debit amt "" nt now None None now])
         (S (nextId db)),
       resp).
Proof.
  intros Hf Ha.
  unfold run, post_friends_deduct_awaited.
  cbn [Debit.amount Debit.note].
  replace (amt <=? 0) with false by lia.
  unfold rejectIf. unfold bind at 1. unfold ret at 1.
  unfold bind at 1. unfold Friend_findById, reads. rewrite Hf.
  unfold bind at 1. unfold Transaction_create at 1.
  unfold bind at 1. unfold Friend_save, writes.
  unfold bind at 1. rewrite todaysSpent_run.
  unfold ret. eexists. reflexivity.
Qed.

Lemma post_friends_deduct_awaited_provider_irrelevant (env : Env)
    (p1 p2 : Provider) (now later : Time) (fid : Id) (b : Debit.body) (db : Db) :
  (run (post_friends_deduct_awaited env p1 now later fid b) db).1
  = (run (post_friends_deduct_awaited env p2 now later fid b) db).1.
Proof.
  destruct b as [[|amt] nt]; [reflexivity|].
  destruct (Z_lt_le_dec 0 amt) as [Ha|Ha].
  - destruct (Friends db !! fid) as [f|] eqn:Hf.
    + destruct (post_friends_deduct_awaited_run env p1 now later fid amt nt db f Hf Ha)
        as [r1 ->].
      destruct (post_friends_deduct_awaited_run env p2 now later fid amt nt db f Hf Ha)
        as [r2 ->].
      reflexivity.
    + unfold run, post_friends_deduct_awaited. cbn [Debit.amount].
      replace (amt <=? 0) with false by lia.
      unfold rejectIf, bind, ret, Friend_findById, reads. rewrite Hf. reflexivity.
  - unfold run, post_friends_deduct_awaited. cbn [Debit.amount].
    replace (amt <=? 0) with true by lia. reflexivity.
Qed.

(** C6. A failed send never undoes or fails a ledger write. When
    [POST /api/loans] is asked to notify, messaging is configured and the
    provider call errors, the answer is 201 with the created entry, the
    refreshed friend and [sendResult = { success: false, error }]; the
    entry is in the ledger, the recompute is applied, and the database is
    the one the request without the notify flag produces. For every
    request, the database after create-loan, and the database and the
    response after a debit, are the same whatever the provider answers;
    the friend-level loan handler likewise. *)
Theorem C6_send_failure_keeps_ledger_write (env : Env) (provider : Provider)
    (now : Time) (fid : Id) (f : Friend) (amt : Z) (rsn err : string) (db : Db) :
  Friends db !! fid = Some f -> 0 < amt ->
  truthy (ULTRAMSG_INSTANCE env) = true -> truthy (ULTRAMSG_TOKEN env) = true ->
  provider (mkOutbound (whatsapp f) (ExactLoanReminder (name f) amt now rsn))
  = Errored err ->
  let notified :=
    run (post_loans env provider now (CreateLoan.mk (Some fid) (Num amt) rsn true)) db in
  let silent :=
    run (post_loans env provider now (CreateLoan.mk (Some fid) (Num amt) rsn false)) db in
  notified.2
  = mkResponse 201 (BLoanCreated (loanEntry db now fid f amt rsn)
                      (Friends notified.1 !! fid) (Some (SendFailed err)))
  /\ Transactions notified.1 = Transactions db ++ [loanEntry db now fid f amt rsn]
  /\ owedOf fid notified.1 = Some (ledgerNet fid (Transactions notified.1))
  /\ notified.1 = silent.1
  /\ (forall (p1 p2 : Provider) (b : CreateLoan.body) (db0 : Db),
        (run (post_loans env p1 now b) db0).1
        = (run (post_loans env p2 now b) db0).1)
  /\ (forall (p1 p2 : Provider) (later : Time) (id : Id) (b : Debit.body) (db0 : Db),
        (runDetaching (post_friends_deduct env p1 now later id b) db0).1
        = (runDetaching (post_friends_deduct env p2 now later id b) db0).1)
  /\ (forall (p1 p2 : Provider) (later : Time) (id : Id) (b : Debit.body) (db0 : Db),
        (run (post_friends_deduct_awaited env p1 now later id b) db0).1
        = (run (post_friends_deduct_awaited env p2 now later id b) db0).1)
  /\ (forall (p1 p2 : Provider) (id : Id) (b : Owed.body) (db0 : Db),
        run (post_friend_loan env p1 now id b) db0
        = run (post_friend_loan env p2 now id b) db0).
Proof.
  intros Hf Ha Hi Ht Herr notified silent. subst notified silent.
  rewrite !(post_loans_run _ _ _ _ _ _ _ _ _ Hf Ha). cbn [fst snd].
  split.
  { unfold loanResponse. rewrite Hi, Ht, Herr. cbn [negb orb].
    unfold loanRecorded. cbn [Friends]. rewrite lookup_insert_eq. reflexivity. }
  split; [reflexivity|].
  split; [apply loanRecorded_owedOf|].
  split; [reflexivity|].
  split; [intros; apply post_loans_provider_irrelevant|].
  split; [intros; apply post_friends_deduct_provider_irrelevant|].
  split; [intros; apply post_friends_deduct_awaited_provider_irrelevant|].
  intros; apply post_friend_loan_provider_irrelevant.
Qed.

(** C6 at the friend of [dbOneFriend] with a provider that times out: the
    answer is 201 and the friend owes the 500 just lent. *)
Lemma C6_send_failure_keeps_ledger_write_witness :
  Friends dbOneFriend !! 0%nat = Some (mkFriend "A" "+911234567890" 100 100 0 1000)
  /\ truthy (ULTRAMSG_INSTANCE envLoanDefault) = true
  /\ truthy (ULTRAMSG_TOKEN envLoanDefault) = true
  /\ failingProvider (mkOutbound "+911234567890" (ExactLoanReminder "A" 500 2000 ""))
     = Errored "timeout of 15000ms exceeded"
  /\ status (run (post_loans envLoanDefault failingProvider 2000
                    (CreateLoan.mk (Some 0%nat) (Num 500) "" true)) dbOneFriend).2
     = 201%nat
  /\ owedOf 0%nat
       (run (post_loans envLoanDefault failingProvider 2000
               (CreateLoan.mk (Some 0%nat) (Num 500) "" true)) dbOneFriend).1
     = Some 500.
Proof.
  pose proof (C6_send_failure_keeps_ledger_write envLoanDefault failingProvider
    2000 0%nat (mkFriend "A" "+911234567890" 100 100 0 1000) 500 ""
    "timeout of 15000ms exceeded" dbOneFriend
    eq_refl eq_refl eq_refl eq_refl eq_refl) as H.
  cbv zeta in H. destruct H as (Hr & _ & Ho & _).
  split; [reflexivity|]. split; [reflexivity|]. split; [reflexivity|].
  split; [reflexivity|].
  split; [exact (f_equal status Hr)|].
  refine (eq_trans Ho _). vm_compute. reflexivity.
Defined.

(* ===================================================================== *)
(** ** Claims on the debit route *)
(* ===================================================================== *)

(** C5. A debit whose amount is not a number or is not positive is
    answered 400 "amount must be a positive number"; a debit with a valid
    amount for an id that resolves to no friend is answered 404
    "Friend not found". In both cases the database is unchanged (no
    transaction is written, no friend field changes) and no send is
    started. *)
Theorem C5_debit_rejected_before_any_write (env : Env) (provider : Provider)
    (now later : Time) (fid : Id) (b : Debit.body) (db : Db) :
  isNaN (Debit.amount b) || lez0 (Debit.amount b) = true
  \/ Friends db !! fid = None ->
  let res := runDetaching (post_friends_deduct env provider now later fid b) db in
  res.1.1 = db
  /\ res.2 = []
  /\ (isNaN (Debit.amount b) || lez0 (Debit.amount b) = true ->
      res.1.2 = InvalidDebitAmount /\ status res.1.2 = 400%nat)
  /\ (isNaN (Debit.amount b) || lez0 (Debit.amount b) = false ->
      res.1.2 = FriendNotFound /\ status res.1.2 = 404%nat).
Proof.
  intros Hrej res. subst res.
  destruct (isNaN (Debit.amount b) || lez0 (Debit.amount b)) eqn:Hv.
  - rewrite post_friends_deduct_invalid by exact Hv.
    repeat split; discriminate.
  - destruct Hrej as [Hrej|Hf]; [discriminate|].
    rewrite post_friends_deduct_missing by assumption.
    repeat split; discriminate.
Qed.

(** C5 at [dbOneFriend]: an amount that is not a number, the amount -30,
    and the unknown id 7 are each rejected with the database unchanged. *)
Lemma C5_debit_rejected_before_any_write_witness :
  (isNaN NaN || lez0 NaN = true
   /\ runDetaching (post_friends_deduct envLoanDefault deliveringProvider 2000 2001
                      0%nat (Debit.mk NaN None)) dbOneFriend
      = (dbOneFriend, InvalidDebitAmount, []))
  /\ (isNaN (Num (-30)) || lez0 (Num (-30)) = true
      /\ (runDetaching (post_friends_deduct envLoanDefault deliveringProvider 2000 2001
                          0%nat (Debit.mk (Num (-30)) None)) dbOneFriend).1.1
         = dbOneFriend)
  /\ (Friends dbOneFriend !! 7%nat = None
      /\ (runDetaching (post_friends_deduct envLoanDefault deliveringProvider 2000 2001
                          7%nat (Debit.mk (Num 30) None)) dbOneFriend).1
         = (dbOneFriend, FriendNotFound)).
Proof.
  split; [split; [reflexivity|]|split; split; [reflexivity| |reflexivity|]].
  - pose proof (C5_debit_rejected_before_any_write envLoanDefault
      deliveringProvider 2000 2001 0%nat (Debit.mk NaN None) dbOneFriend
      (or_introl eq_refl)) as H.
    cbv zeta in H. destruct H as (Hdb & Hlog & Hinv & _).
    destruct (Hinv eq_refl) as [Hr _].
    apply injective_projections; [apply injective_projections|];
      [exact Hdb | exact Hr | exact Hlog].
  - exact (proj1 (C5_debit_rejected_before_any_write envLoanDefault
      deliveringProvider 2000 2001 0%nat (Debit.mk (Num (-30)) None) dbOneFriend
      (or_introl eq_refl))).
  - pose proof (C5_debit_rejected_before_any_write envLoanDefault
      deliveringProvider 2000 2001 7%nat (Debit.mk (Num 30) None) dbOneFriend
      (or_intror eq_refl)) as H.
    cbv zeta in H. destruct H as (Hdb & _ & _ & Hnf).
    destruct (Hnf eq_refl) as [Hr _].
    apply injective_projections; [exact Hdb | exact Hr].
Defined.

(* ===================================================================== *)
(** ** Claims on repayment *)
(* ===================================================================== *)

Lemma owedStored_owedOf (db : Db) (now : Time) (fid : Id) (f : Friend)
    (tx : Transaction) (newOwed : Z) :
  owedOf fid (owedStored db now fid f tx newOwed) = Some newOwed.
Proof.
  unfold owedOf, owedStored. cbn [Friends]. rewrite lookup_insert_eq. reflexivity.
Qed.

(** C2 as the specification states it fails on a friend whose stored owed
    amount is negative: the friend of [dbNegativeOwed] owes -5, the repayment amount
    -3 is greater, and the answer is "Invalid amount", not
    "Repay amount greater than owed". *)
Lemma C2_counterexample :
  let res := run (post_friend_repay 4000 0%nat (Owed.mk (Num (-3)) None false))
               dbNegativeOwed in
  owedOf 0%nat dbNegativeOwed = Some (-5)
  /\ -5 < -3
  /\ res = (dbNegativeOwed, InvalidAmount)
  /\ res.2 <> OverRepayment.
Proof.
  cbv zeta. split; [reflexivity|]. split; [lia|].
  split; [vm_compute; reflexivity|]. vm_compute. discriminate.
Qed.

(** C2 (amended). For an existing friend, [POST /:id/repay] with a positive
    amount [a]: when [a] exceeds the stored owed amount it answers
    "Repay amount greater than owed" and leaves the database as it was;
    when [0 < a <= owedAmount] it answers 200, appends one repay entry of
    amount [a] and stores [owedAmount - a], which is 0 when
    [a = owedAmount]. An amount that is not a number or not positive is
    answered "Invalid amount", the database unchanged. Whatever the
    request, the route leaves the database unchanged or stores a
    non-negative owed amount. *)
Theorem C2_repayment_guard (now : Time) (id : Id) (amt : jsnum)
    (nt : option string) (sm : bool) (db : Db) (f : Friend) :
  Friends db !! id = Some f ->
  let res := run (post_friend_repay now id (Owed.mk amt nt sm)) db in
  (forall a, amt = Num a -> 0 < a -> owedAmount f < a ->
     res = (db, OverRepayment))
  /\ (isNaN amt || lez0 amt = true -> res = (db, InvalidAmount))
  /\ (forall a, amt = Num a -> 0 < a -> a <= owedAmount f ->
        status res.2 = 200%nat
        /\ Transactions res.1
           = Transactions db
             ++ [owedEntry db now id f repay a (owedAmount f - a)
                   (noteOr nt "Repayment")]
        /\ owedOf id res.1 = Some (owedAmount f - a)
        /\ (a = owedAmount f -> owedOf id res.1 = Some 0))
  /\ (res.1 = db \/ exists o, owedOf id res.1 = Some o /\ 0 <= o).
Proof.
  intros Hf res. subst res.
  rewrite (post_friend_repay_run _ _ _ _ _ _ _ Hf).
  split; [|split; [|split]].
  - intros a -> Ha Hover.
    replace (a <=? 0) with false by lia.
    replace (owedAmount f - a <? 0) with true by lia. reflexivity.
  - destruct amt as [|a]; [reflexivity|]. cbn. intros ->. reflexivity.
  - intros a -> Ha Hle.
    replace (a <=? 0) with false by lia.
    replace (owedAmount f - a <? 0) with false by lia.
    cbv zeta. cbn [fst snd status].
    split; [reflexivity|]. split; [reflexivity|].
    rewrite owedStored_owedOf.
    split; [reflexivity|]. intros ->. f_equal. lia.
  - destruct amt as [|a]; [left; reflexivity|].
    destruct (a <=? 0); [left; reflexivity|].
    destruct (owedAmount f - a <? 0) eqn:Hneg; [left; reflexivity|].
    right. cbv zeta. cbn [fst]. rewrite owedStored_owedOf.
    eexists. split; [reflexivity|]. lia.
Qed.

(** C2 at the friend of [dbLoan5], who owes 5: repaying 6 is rejected and
    changes nothing, repaying 5 leaves exactly 0. *)
Lemma C2_repayment_guard_witness :
  Friends dbLoan5 !! 0%nat = Some (mkFriend "A" "+911234567890" 100 100 5 2000)
  /\ run (post_friend_repay 4000 0%nat (Owed.mk (Num 6) None false)) dbLoan5
     = (dbLoan5, OverRepayment)
  /\ owedOf 0%nat
       (run (post_friend_repay 4000 0%nat (Owed.mk (Num 5) None false)) dbLoan5).1
     = Some 0.
Proof.
  split; [reflexivity|]. split.
  - exact (proj1 (C2_repayment_guard 4000 0%nat (Num 6) None false dbLoan5
                    (mkFriend "A" "+911234567890" 100 100 5 2000) eq_refl)
             6 eq_refl eq_refl eq_refl).
  - pose proof (C2_repayment_guard 4000 0%nat (Num 5) None false dbLoan5
                  (mkFriend "A" "+911234567890" 100 100 5 2000) eq_refl) as H.
    cbv zeta in H. destruct H as (_ & _ & Hok & _).
    destruct (Hok 5 eq_refl eq_refl ltac:(cbn; lia)) as (_ & _ & _ & Hzero).
    exact (Hzero eq_refl).
Defined.

(* ===================================================================== *)
(** ** Claims on the effect of a debit *)
(* ===================================================================== *)

(** C3 as the specification states it fails on the snapshots: debiting 30
    from the balance 100 of the friend of [dbOneFriend] writes an entry of
    amount 30 whose [previousBalance] and [newBalance] are [null], not 100
    and 70. The entry's type is the schema default, since the route passes
    none: ['debit'] under the revised schema, ['loan'] under
    backend/models/Transaction.js. *)
Lemma C3_counterexample :
  let res := runDetaching
               (post_friends_deduct envDebitDefault deliveringProvider 2000 2001
                  0%nat (Debit.mk (Num 30) None)) dbOneFriend in
  let res' := runDetaching
                (post_friends_deduct envLoanDefault deliveringProvider 2000 2001
                   0%nat (Debit.mk (Num 30) None)) dbOneFriend in
  totalBalance <$> Friends dbOneFriend !! 0%nat = Some 100
  /\ (exists tx,
        Transactions res.1.1 = Transactions dbOneFriend ++ [tx]
        /\ type tx = debit /\ amount tx = 30
        /\ previousBalance tx = None /\ newBalance tx = None
        /\ previousBalance tx <> Some 100 /\ newBalance tx <> Some 70)
  /\ (exists tx,
        Transactions res'.1.1 = Transactions dbOneFriend ++ [tx]
        /\ type tx = loan /\ type tx <> debit
        /\ previousBalance tx = None /\ newBalance tx = None).
Proof.
  cbv zeta. split; [reflexivity|]. split.
  - eexists. split; [vm_compute; reflexivity|].
    repeat split; discriminate.
  - eexists. split; [vm_compute; reflexivity|].
    repeat split; discriminate.
Qed.

(** C3 (amended). For an existing friend with balance [b] and a debit of a
    positive amount [a], the debit route answers 200 with the updated
    friend and the new entry; it appends exactly one entry, for that
    friend, of amount [a], with the request's note, dated at its creation
    time, whose [previousBalance] and [newBalance] snapshots stay [null];
    it sets the friend's [totalBalance] to exactly [b - a], without
    clamping, and [lastUpdatedAt] to the entry's date, and changes no other
    field of that friend and no other friend. *)
Theorem C3_debit_effect (env : Env) (provider : Provider) (now later : Time)
    (fid : Id) (f : Friend) (amt : Z) (nt : option string) (db : Db) :
  Friends db !! fid = Some f -> 0 < amt ->
  let res := runDetaching
               (post_friends_deduct env provider now later fid
                  (Debit.mk (Num amt) nt)) db in
  exists tx f',
    res.1.2 = mkResponse 200 (BDebit f' tx)
    /\ Transactions res.1.1 = Transactions db ++ [tx]
    /\ friend tx = fid /\ amount tx = amt /\ note tx = nt /\ date tx = now
    /\ previousBalance tx = None /\ newBalance tx = None
    /\ Friends res.1.1 !! fid = Some f'
    /\ totalBalance f' = totalBalance f - amt
    /\ lastUpdatedAt f' = date tx
    /\ (name f', whatsapp f', savedAmount f', owedAmount f')
       = (name f, whatsapp f, savedAmount f, owedAmount f)
    /\ (forall j, j <> fid -> Friends res.1.1 !! j = Friends db !! j).
Proof.
  intros Hf Ha res. subst res.
  destruct (post_friends_deduct_run env provider now later fid amt nt db f Hf Ha)
    as [logged ->].
  cbn [fst snd].
  exists (debitEntry env db now fid amt nt),
         (set_balance (totalBalance f - amt) now f).
  split; [reflexivity|]. split; [reflexivity|].
  do 6 (split; [reflexivity|]).
  split; [unfold debited; cbn [Friends]; apply lookup_insert_eq|].
  do 3 (split; [reflexivity|]).
  intros j Hj. unfold debited. cbn [Friends].
  apply lookup_insert_ne. congruence.
Qed.

(** C3 at the friend of [dbOneFriend], whose balance is 100: debiting 150
    leaves -50. *)
Lemma C3_debit_effect_witness :
  Friends dbOneFriend !! 0%nat = Some (mkFriend "A" "+911234567890" 100 100 0 1000)
  /\ 0 < 150
  /\ totalBalance <$>
       Friends (runDetaching
                  (post_friends_deduct envDebitDefault deliveringProvider 2000 2001
                     0%nat (Debit.mk (Num 150) None)) dbOneFriend).1.1 !! 0%nat
     = Some (-50).
Proof.
  split; [reflexivity|]. split; [reflexivity|].
  destruct (C3_debit_effect envDebitDefault deliveringProvider 2000 2001 0%nat
              (mkFriend "A" "+911234567890" 100 100 0 1000) 150 None dbOneFriend
              eq_refl eq_refl)
    as (tx & f' & _ & _ & _ & _ & _ & _ & _ & _ & Hlook & Hbal & _).
  refine (eq_trans (f_equal (fmap totalBalance) Hlook) _).
  exact (f_equal Some Hbal).
Defined.

(* ===================================================================== *)
(** ** Today's spent *)
(* ===================================================================== *)

(** The day's total is the sum of the amounts of every entry of the friend
    dated in the window, of whatever type. *)
Lemma todaysSpent_sum (env : Env) (now : Time) (fid : Id) (db : Db) :
  todaysSpent env now fid db
  = (db, inr (sumAmounts
                (List.filter (inWindow fid (startOfDay (tzOffset env) now)
                                (endOfDay (tzOffset env) now))
                   (Transactions db)))).
Proof. rewrite todaysSpent_run, foldl_amounts. reflexivity. Qed.

(** C4, evaluated. The friend of [dbLoanThenDebit] was lent 500 and then
    debited 30 on the same day: the ledger holds one loan entry and one
    debit entry, the day's debits sum to 30, and [todaysSpent] answers
    530. *)
Lemma C4_todaysSpent_counts_every_type :
  List.map (fun t => (type t, amount t, date t)) (Transactions dbLoanThenDebit)
  = [(loan, 500, 2000); (debit, 30, 3000)]
  /\ debitsInWindow 0%nat (startOfDay 0 3001) (endOfDay 0 3001)
       (Transactions dbLoanThenDebit) = 30
  /\ todaysSpent envDebitDefault 3001 0%nat dbLoanThenDebit
     = (dbLoanThenDebit, inr 530).
Proof.
  split; [reflexivity|]. split; [reflexivity|].
  rewrite todaysSpent_sum. reflexivity.
Qed.

(* ===================================================================== *)
(** ** The owed amount against the ledger *)
(* ===================================================================== *)


(** C1, evaluated. The friend of [dbDebitAsLoan] was debited 30 through
    the route that passes no [type]; under the schema default ['loan'] the
    entry counts as a loan while the stored owed amount stays 0. A loan of
    500 recorded through the friend-level handler then stores
    [0 + 500 = 500] although the ledger's net amount is 530, whereas the
    same loan through [POST /api/loans], which recomputes, stores 530. *)
Lemma C1_in_place_update_keeps_drift :
  let inPlace :=
    (run (post_friend_loan envLoanDefault deliveringProvider 4000 0%nat
            (Owed.mk (Num 500) None false)) dbDebitAsLoan).1 in
  let recomputedDb :=
    (run (post_loans envLoanDefault deliveringProvider 4000
            (CreateLoan.mk (Some 0%nat) (Num 500) "" false)) dbDebitAsLoan).1 in
  List.map (fun t => (type t, amount t)) (Transactions dbDebitAsLoan) = [(loan, 30)]
  /\ owedOf 0%nat dbDebitAsLoan = Some 0
  /\ owedOf 0%nat inPlace = Some 500
  /\ ledgerNet 0%nat (Transactions inPlace) = 530
  /\ owedOf 0%nat recomputedDb = Some 530
  /\ ledgerNet 0%nat (Transactions recomputedDb) = 530.
Proof. cbv zeta. repeat split; vm_compute; reflexivity. Qed.

(** The routes of the loan router end with the recompute: after a valid
    create, an amend by increment or by a non-negative amount, or a
    delete, the stored owed amount of the owning friend is the ledger's net
    amount, whatever was stored before. *)
Theorem recompute_routes_restore_owed (env : Env) (provider : Provider)
    (now : Time) (db : Db) :
  (forall fid f amt rsn sm,
     Friends db !! fid = Some f -> 0 < amt ->
     owedConsistent fid
       (run (post_loans env provider now
               (CreateLoan.mk (Some fid) (Num amt) rsn sm)) db).1)
  /\ (forall id t inc r,
        List.find (hasId id) (Transactions db) = Some t ->
        owedConsistent (friend t)
          (run (patch_loans_id now id (AmendLoan.mk None (Some (Num inc)) r)) db).1)
  /\ (forall id t v inc r,
        List.find (hasId id) (Transactions db) = Some t -> 0 <= v ->
        owedConsistent (friend t)
          (run (patch_loans_id now id (AmendLoan.mk (Some (Num v)) inc r)) db).1)
  /\ (forall id t,
        List.find (hasId id) (Transactions db) = Some t ->
        owedConsistent (friend t) (run (delete_loans_id now id) db).1).
Proof.
  split; [|split; [|split]].
  - intros fid f amt rsn sm Hf Ha.
    rewrite (post_loans_run _ _ _ _ _ _ _ _ _ Hf Ha). cbn [fst].
    intros g. unfold loanRecorded. cbn [Friends Transactions].
    rewrite lookup_insert_eq. intros [= <-]. reflexivity.
  - intros id t inc r Hfind.
    rewrite (patch_increment_run _ _ _ _ _ _ Hfind). cbn [fst].
    apply ledgerChanged_consistent.
  - intros id t v inc r Hfind Hv.
    rewrite (patch_amount_run _ _ _ _ _ _ _ Hfind Hv). cbn [fst].
    apply ledgerChanged_consistent.
  - intros id t Hfind.
    rewrite (delete_loans_run _ _ _ _ Hfind). cbn [fst].
    apply ledgerChanged_consistent.
Qed.



(** The scenario of the specification: after the loan of 500 the friend
    owes 500, after the repayment of 200 the friend owes 300, and after
    the loan entry is amended to 400 the recompute gives 400 - 200 = 200. *)
Lemma scenario_loan_repay_amend :
  owedOf 0%nat dbScenarioLoan = Some 500
  /\ owedOf 0%nat dbScenarioRepay = Some 300
  /\ owedOf 0%nat dbScenarioAmend = Some 200
  /\ ledgerNet 0%nat (Transactions dbScenarioAmend) = 200.
Proof. repeat split; vm_compute; reflexivity. Qed.







(* ===================================================================== *)
(** ** Sorted query results *)
(* ===================================================================== *)

Section SortBy.
Context {A : Type} (le : A -> A -> bool).
Hypothesis le_total : forall x y, le x y = true \/ le y x = true.

Lemma insertBy_perm (x : A) (l : list A) : Permutation (insertBy le x l) (x :: l).
Proof.
  induction l as [|y l IH]; cbn [insertBy]; [reflexivity|].
  destruct (le x y); [reflexivity|].
  rewrite IH. apply perm_swap.
Qed.

Lemma sortBy_perm (l : list A) : Permutation (sortBy le l) l.
Proof.
  induction l as [|x l IH]; [reflexivity|].
  unfold sortBy. cbn [foldr]. fold (sortBy le l).
  rewrite insertBy_perm, IH. reflexivity.
Qed.

Lemma insertBy_hd (x y : A) (l : list A) :
  le y x = true -> HdRel (fun a b => le a b = true) y l ->
  HdRel (fun a b => le a b = true) y (insertBy le x l).
Proof.
  intros Hyx Hl. destruct l as [|z l]; cbn [insertBy].
  - constructor. exact Hyx.
  - destruct (le x z); constructor; [exact Hyx|].
    inversion Hl; assumption.
Qed.

Lemma insertBy_sorted (x : A) (l : list A) :
  Sorted (fun a b => le a b = true) l ->
  Sorted (fun a b => le a b = true) (insertBy le x l).
Proof.
  induction 1 as [|y l Hs IH Hhd]; cbn [insertBy].
  - repeat constructor.
  - destruct (le x y) eqn:Hxy.
    + constructor; [constructor; assumption|]. constructor. exact Hxy.
    + constructor; [exact IH|].
      apply insertBy_hd; [|exact Hhd].
      destruct (le_total x y) as [H|H]; [congruence|exact H].
Qed.

Lemma sortBy_sorted (l : list A) : Sorted (fun a b => le a b = true) (sortBy le l).
Proof.
  induction l as [|x l IH]; [constructor|].
  unfold sortBy. cbn [foldr]. apply insertBy_sorted. exact IH.
Qed.
End SortBy.

Lemma Sorted_weaken {A : Type} (R R' : A -> A -> Prop) (l : list A) :
  (forall a b, R a b -> R' a b) -> Sorted R l -> Sorted R' l.
Proof.
  intros Himp. induction 1 as [|x l Hs IH Hhd]; constructor; [exact IH|].
  destruct Hhd; constructor. apply Himp. assumption.
Qed.

Lemma sortByDateDesc_sortBy (l : list Transaction) :
  sortByDateDesc l = sortBy dateDesc l.
Proof.
  unfold sortByDateDesc, sortBy. induction l as [|t l IH]; [reflexivity|].
  cbn [foldr]. rewrite IH. generalize (foldr (insertBy dateDesc) [] l).
  intros s. induction s as [|u s IHs]; [reflexivity|].
  cbn [insertByDateDesc insertBy]. unfold dateDesc at 1. rewrite IHs. reflexivity.
Qed.

Lemma Zleb_total_desc (key : Transaction -> Z) (x y : Transaction) :
  (key y <=? key x) = true \/ (key x <=? key y) = true.
Proof. lia. Qed.

(** The history of a friend, [GET /api/friends/:id/transactions], never
    writes; it answers exactly the ledger entries of that friend, each
    once, and no entry is followed by one with a later date. *)
Theorem transactions_history_sorted (id : Id) (db : Db) :
  exists txs,
    run (get_friends_id_transactions id) db = (db, mkResponse 200 (BTransactions txs))
    /\ Permutation txs
         (List.filter (fun u => bool_decide (friend u = id)) (Transactions db))
    /\ (forall t, In t txs <-> In t (Transactions db) /\ friend t = id)
    /\ Sorted (fun a b => date b <= date a) txs.
Proof.
  eexists. split; [reflexivity|].
  rewrite sortByDateDesc_sortBy.
  assert (Hp := sortBy_perm dateDesc
                  (List.filter (fun u => bool_decide (friend u = id)) (Transactions db))).
  split; [exact Hp|]. split.
  - intros t. split.
    + intros Hin. apply (Permutation_in _ Hp) in Hin.
      apply List.filter_In in Hin as [Hin Hf].
      apply bool_decide_eq_true_1 in Hf. auto.
    + intros [Hin Hf]. apply (Permutation_in _ (Permutation_sym Hp)).
      apply List.filter_In. split; [exact Hin|].
      apply bool_decide_eq_true_2. exact Hf.
  - eapply Sorted_weaken;
      [|apply (sortBy_sorted dateDesc (Zleb_total_desc date))].
    intros a b Hab. unfold dateDesc in Hab. lia.
Qed.

(* ===================================================================== *)
(** ** What each route does to the database *)
(* ===================================================================== *)

Lemma run_fst (h : Handler Response) (db : Db) : (run h db).1 = (h db).1.
Proof. unfold run. destruct (h db) as [db' [r|r]]; reflexivity. Qed.

Lemma runDetaching_fst (h : Handler Detaching) (db : Db) :
  (runDetaching h db).1.1 = (h db).1.
Proof. unfold runDetaching. destruct (h db) as [db' [r|[r l]]]; reflexivity. Qed.

Lemma post_friends_cases (now : Time) (b : NewFriend.body) (db : Db) :
  (post_friends now b db).1 = db
  \/ exists fr,
       (post_friends now b db).1
       = mkDb (<[nextId db := fr]> (Friends db)) (Transactions db) (S (nextId db))
       /\ owedAmount fr = 0.
Proof.
  unfold post_friends, bind, rejectIf.
  destruct (String.eqb (NewFriend.name b) "" || String.eqb (NewFriend.whatsapp b) "");
    [left; reflexivity|].
  right. eexists. split; reflexivity.
Qed.

Lemma patch_saved_cases (id : Id) (v : option Z) (db : Db) :
  (patch_friends_id_saved id v db).1 = db
  \/ exists f x, v = Some x /\ Friends db !! id = Some f
       /\ (patch_friends_id_saved id v db).1
          = mkDb (<[id := set_saved x f]> (Friends db)) (Transactions db) (nextId db).
Proof.
  destruct v as [x|]; [|left; reflexivity].
  unfold patch_friends_id_saved, bind, Friend_findById, reads.
  destruct (Friends db !! id) as [f|] eqn:Hf; [|left; reflexivity].
  right. exists f, x. repeat split.
Qed.

Lemma patch_balance_cases (now : Time) (id : Id) (v : Z) (db : Db) :
  (patch_friends_id_balance now id v db).1 = db
  \/ exists f, Friends db !! id = Some f
       /\ (patch_friends_id_balance now id v db).1
          = mkDb (<[id := set_balance v now f]> (Friends db)) (Transactions db) (nextId db).
Proof.
  unfold patch_friends_id_balance, bind, Friend_findById, reads.
  destruct (Friends db !! id) as [f|] eqn:Hf; [|left; reflexivity].
  right. exists f. repeat split.
Qed.

Lemma post_friends_deduct_cases (env : Env) (provider : Provider)
    (now later : Time) (fid : Id) (b : Debit.body) (db : Db) :
  (post_friends_deduct env provider now later fid b db).1 = db
  \/ exists f amt, Debit.amount b = Num amt /\ 0 < amt /\ Friends db !! fid = Some f
       /\ (post_friends_deduct env provider now later fid b db).1
          = appended db fid (set_balance (totalBalance f - amt) now f)
              (debitDoc db now fid (schemaDefaultType env) amt (Debit.note b)).
Proof.
  rewrite <- runDetaching_fst.
  destruct (isNaN (Debit.amount b) || lez0 (Debit.amount b)) eqn:Hv.
  - rewrite post_friends_deduct_invalid by exact Hv. left. reflexivity.
  - destruct (Friends db !! fid) as [f|] eqn:Hf.
    + destruct b as [[|amt] nt]; [discriminate|].
      cbn [Debit.amount isNaN orb] in Hv. apply lez0_false_pos in Hv.
      destruct (post_friends_deduct_run env provider now later fid amt nt db f Hf Hv)
        as [l ->].
      right. exists f, amt. repeat split. exact Hv.
    + rewrite post_friends_deduct_missing by assumption. left. reflexivity.
Qed.

Lemma post_friends_deduct_awaited_cases (env : Env) (provider : Provider)
    (now later : Time) (fid : Id) (b : Debit.body) (db : Db) :
  (post_friends_deduct_awaited env provider now later fid b db).1 = db
  \/ exists f amt, Debit.amount b = Num amt /\ 0 < amt /\ Friends db !! fid = Some f
       /\ (post_friends_deduct_awaited env provider now later fid b db).1
          = appended db fid (set_balance (totalBalance f - amt) now f)
              (debitDoc db now fid debit amt (Debit.note b)).
Proof.
  rewrite <- run_fst.
  destruct b as [[|amt] nt]; [left; reflexivity|].
  destruct (Z_lt_le_dec 0 amt) as [Ha|Ha].
  - destruct (Friends db !! fid) as [f|] eqn:Hf.
    + destruct (post_friends_deduct_awaited_run env provider now later fid amt nt db f Hf Ha)
        as [r ->].
      right. exists f, amt. repeat split. exact Ha.
    + left. unfold run, post_friends_deduct_awaited. cbn [Debit.amount].
      replace (amt <=? 0) with false by lia.
      unfold rejectIf, bind, ret, Friend_findById, reads. rewrite Hf. reflexivity.
  - left. unfold run, post_friends_deduct_awaited. cbn [Debit.amount].
    replace (amt <=? 0) with true by lia. reflexivity.
Qed.

(** The send route on a positive amount for an existing friend. *)
Lemma post_send_run (blank : string -> bool) (env : Env) (provider : Provider)
    (now later : Time) (fid : Id) (amt : Z) (nt : option string) (db : Db)
    (f : Friend) :
  Friends db !! fid = Some f -> 0 < amt ->
  exists logged,
    runDetaching (post_send blank env provider now later fid (Debit.mk (Num amt) nt)) db
    = (debited env db now fid f amt nt,
       mkResponse 200 (BDebit (set_balance (totalBalance f - amt) now f)
                         (debitEntry env db now fid amt nt)),
       [logged]).
Proof.
  intros Hf Ha.
  unfold runDetaching, post_send.
  cbn [Debit.amount Debit.note].
  replace (amt <=? 0) with false by lia.
  unfold rejectIf. unfold bind at 1. unfold ret at 1.
  unfold bind at 1. unfold Friend_findById, reads. rewrite Hf.
  unfold bind at 1. unfold Transaction_create at 1.
  unfold bind at 1. unfold Friend_save, writes.
  unfold bind at 1. rewrite todaysSpent_run.
  unfold ret. eexists. reflexivity.
Qed.

Lemma post_send_rejected (blank : string -> bool) (env : Env) (provider : Provider)
    (now later : Time) (fid : Id) (b : Debit.body) (db : Db) :
  isNaN (Debit.amount b) || lez0 (Debit.amount b) = true
  \/ Friends db !! fid = None ->
  runDetaching (post_send blank env provider now later fid b) db
  = runDetaching (post_friends_deduct env provider now later fid b) db.
Proof.
  intros Hrej.
  destruct (isNaN (Debit.amount b) || lez0 (Debit.amount b)) eqn:Hv.
  - rewrite post_friends_deduct_invalid by exact Hv.
    destruct b as [[|amt] nt]; [reflexivity|].
    cbn in Hv. unfold runDetaching, post_send. cbn [Debit.amount].
    rewrite Hv. reflexivity.
  - destruct Hrej as [Hrej|Hf]; [discriminate|].
    rewrite post_friends_deduct_missing by assumption.
    destruct b as [[|amt] nt]; [discriminate|].
    cbn in Hv. unfold runDetaching, post_send. cbn [Debit.amount].
    rewrite Hv. unfold rejectIf, bind, ret, Friend_findById, reads.
    rewrite Hf. reflexivity.
Qed.

Lemma post_send_agrees (blank : string -> bool) (env : Env) (provider : Provider)
    (now later : Time) (fid : Id) (b : Debit.body) (db : Db) :
  (runDetaching (post_send blank env provider now later fid b) db).1
  = (runDetaching (post_friends_deduct env provider now later fid b) db).1.
Proof.
  destruct (isNaN (Debit.amount b) || lez0 (Debit.amount b)) eqn:Hv.
  - rewrite post_send_rejected by (left; exact Hv). reflexivity.
  - destruct (Friends db !! fid) as [f|] eqn:Hf.
    + destruct b as [[|amt] nt]; [discriminate|].
      cbn [Debit.amount isNaN orb] in Hv. apply lez0_false_pos in Hv.
      destruct (post_send_run blank env provider now later fid amt nt db f Hf Hv)
        as [l1 ->].
      destruct (post_friends_deduct_run env provider now later fid amt nt db f Hf Hv)
        as [l2 ->].
      reflexivity.
    + rewrite post_send_rejected by (right; exact Hf). reflexivity.
Qed.

Lemma post_send_cases (blank : string -> bool) (env : Env) (provider : Provider)
    (now later : Time) (fid : Id) (b : Debit.body) (db : Db) :
  (post_send blank env provider now later fid b db).1 = db
  \/ exists f amt, Debit.amount b = Num amt /\ 0 < amt /\ Friends db !! fid = Some f
       /\ (post_send blank env provider now later fid b db).1
          = appended db fid (set_balance (totalBalance f - amt) now f)
              (debitDoc db now fid (schemaDefaultType env) amt (Debit.note b)).
Proof.
  rewrite <- runDetaching_fst.
  replace ((runDetaching (post_send blank env provider now later fid b) db).1.1)
    with ((runDetaching (post_friends_deduct env provider now later fid b) db).1.1)
    by (rewrite post_send_agrees; reflexivity).
  rewrite runDetaching_fst. apply post_friends_deduct_cases.
Qed.

Lemma delete_friends_cases (id : Id) (db : Db) :
  (delete_friends_id id db).1 = db
  \/ exists f, Friends db !! id = Some f
       /\ (delete_friends_id id db).1
          = mkDb (delete id (Friends db))
              (List.filter (fun u => negb (bool_decide (friend u = id)))
                 (Transactions db))
              (nextId db).
Proof.
  rewrite <- run_fst.
  destruct (Friends db !! id) as [f|] eqn:Hf.
  - right. exists f. split; [reflexivity|].
    rewrite (delete_friends_run _ _ _ Hf). reflexivity.
  - left. unfold run, delete_friends_id, bind, Friend_findById, reads.
    rewrite Hf. reflexivity.
Qed.

Lemma loanRecorded_appended (db : Db) (now : Time) (fid : Id) (f : Friend)
    (amt : Z) (rsn : string) :
  loanRecorded db now fid f amt rsn
  = appended db fid
      (set_owed (ledgerNet fid (Transactions db ++ [loanEntry db now fid f amt rsn]))
         now f)
      (loanEntry db now fid f amt rsn).
Proof. reflexivity. Qed.

Lemma post_loans_cases (env : Env) (provider : Provider) (now : Time)
    (b : CreateLoan.body) (db : Db) :
  (post_loans env provider now b db).1 = db
  \/ exists fid f amt,
       CreateLoan.friendId b = Some fid /\ CreateLoan.amount b = Num amt
       /\ 0 < amt /\ Friends db !! fid = Some f
       /\ (post_loans env provider now b db).1
          = loanRecorded db now fid f amt (CreateLoan.reason b).
Proof.
  rewrite <- run_fst.
  destruct b as [[fid|] [|amt] rsn sm]; try (left; reflexivity).
  destruct (Z_lt_le_dec 0 amt) as [Ha|Ha].
  - destruct (Friends db !! fid) as [f|] eqn:Hf.
    + right. exists fid, f, amt.
      rewrite (post_loans_run _ _ _ _ _ _ _ _ _ Hf Ha). repeat split; assumption.
    + left. unfold run, post_loans.
      cbn [CreateLoan.friendId CreateLoan.amount].
      replace ((amt =? 0) || (amt <=? 0)) with false by lia.
      unfold rejectIf, bind, ret, Friend_findById, reads. rewrite Hf. reflexivity.
  - left. unfold run, post_loans.
    cbn [CreateLoan.friendId CreateLoan.amount].
    replace ((amt =? 0) || (amt <=? 0)) with true by lia.
    reflexivity.
Qed.

(** The amend route when neither [amount] nor [increment] is given. *)
Lemma patch_reason_run (now : Time) (id : Id) (db : Db) (t : Transaction)
    (r : option string) :
  List.find (hasId id) (Transactions db) = Some t ->
  let t' := withReason r t in
  let db' := ledgerChanged db now (friend t) (replaceDoc t' (Transactions db)) in
  run (patch_loans_id now id (AmendLoan.mk None None r)) db
  = (db', mkResponse 200 (BLoanUpdated t' (Friends db' !! friend t))).
Proof.
  intros Hfind t' db'.
  unfold run, patch_loans_id.
  unfold bind at 1. unfold Transaction_findById, reads. rewrite Hfind.
  cbn [AmendLoan.amount AmendLoan.increment AmendLoan.reason].
  unfold bind at 1. unfold ret at 1.
  fold (withReason r t). fold t'.
  rewrite patch_tail.
  subst db'. replace (friend t') with (friend t)
    by (subst t'; rewrite friend_withReason; reflexivity).
  reflexivity.
Qed.

Lemma set_amount_same (t : Transaction) : set_amount (amount t) t = t.
Proof. destruct t; reflexivity. Qed.

Lemma patch_loans_cases (now : Time) (id : Id) (b : AmendLoan.body) (db : Db) :
  (patch_loans_id now id b db).1 = db
  \/ exists t t', List.find (hasId id) (Transactions db) = Some t
       /\ amendedFrom t t'
       /\ (patch_loans_id now id b db).1
          = ledgerChanged db now (friend t) (replaceDoc t' (Transactions db)).
Proof.
  rewrite <- run_fst.
  destruct (List.find (hasId id) (Transactions db)) as [t|] eqn:Hfind.
  2:{ left. unfold run, patch_loans_id, bind, Transaction_findById, reads.
      rewrite Hfind. reflexivity. }
  destruct b as [[[|v]|] inc r].
  - left. unfold run, patch_loans_id, bind, Transaction_findById, reads.
    rewrite Hfind. reflexivity.
  - destruct (Z_lt_le_dec v 0) as [Hv|Hv].
    + left. unfold run, patch_loans_id. unfold bind at 1.
      unfold Transaction_findById, reads. rewrite Hfind.
      cbn [AmendLoan.amount]. replace (v <? 0) with true by lia. reflexivity.
    + right. exists t, (withReason r (set_amount v t)).
      split; [reflexivity|]. split; [exists v, r; reflexivity|].
      rewrite (patch_amount_run _ _ _ _ _ _ _ Hfind Hv). reflexivity.
  - destruct inc as [[|i]|].
    + left. unfold run, patch_loans_id, bind, Transaction_findById, reads.
      rewrite Hfind. reflexivity.
    + right. exists t, (withReason r (set_amount (amount t + i) t)).
      split; [reflexivity|]. split; [eexists _, r; reflexivity|].
      rewrite (patch_increment_run _ _ _ _ _ _ Hfind). reflexivity.
    + right. exists t, (withReason r t).
      split; [reflexivity|].
      split; [exists (amount t), r; rewrite set_amount_same; reflexivity|].
      rewrite (patch_reason_run _ _ _ _ _ Hfind). reflexivity.
Qed.

Lemma delete_loans_cases (now : Time) (id : Id) (db : Db) :
  (delete_loans_id now id db).1 = db
  \/ exists t, List.find (hasId id) (Transactions db) = Some t
       /\ (delete_loans_id now id db).1
          = ledgerChanged db now (friend t) (withoutDoc id (Transactions db)).
Proof.
  rewrite <- run_fst.
  destruct (List.find (hasId id) (Transactions db)) as [t|] eqn:Hfind.
  - right. exists t. split; [reflexivity|].
    rewrite (delete_loans_run _ _ _ _ Hfind). reflexivity.
  - left. unfold run, delete_loans_id, bind, Transaction_findById, reads.
    rewrite Hfind. reflexivity.
Qed.

Lemma post_friend_loan_cases (env : Env) (provider : Provider) (now : Time)
    (id : Id) (b : Owed.body) (db : Db) :
  (post_friend_loan env provider now id b db).1 = db
  \/ exists f amt nt, Owed.amount b = Num amt /\ 0 < amt
       /\ Friends db !! id = Some f
       /\ (post_friend_loan env provider now id b db).1
          = appended db id (set_owed (owedAmount f + amt) now f)
              (owedEntry db now id f loan amt (owedAmount f + amt) nt).
Proof.
  rewrite <- run_fst. destruct b as [amt nt sm].
  destruct (Friends db !! id) as [f|] eqn:Hf.
  - destruct amt as [|a].
    { left. unfold run, post_friend_loan, bind, Friend_findById, reads.
      rewrite Hf. reflexivity. }
    destruct (Z_lt_le_dec 0 a) as [Ha|Ha].
    + right. exists f, a, (noteOr nt "Loan recorded").
      rewrite (post_friend_loan_run _ _ _ _ _ _ _ _ _ Hf Ha). repeat split; assumption.
    + left. unfold run, post_friend_loan, bind, Friend_findById, reads.
      rewrite Hf. cbn [Owed.amount]. replace (a <=? 0) with true by lia.
      reflexivity.
  - left. unfold run, post_friend_loan, bind, Friend_findById, reads.
    rewrite Hf. reflexivity.
Qed.

Lemma post_friend_repay_cases (now : Time) (id : Id) (b : Owed.body) (db : Db) :
  (post_friend_repay now id b db).1 = db
  \/ exists f amt nt, Owed.amount b = Num amt /\ 0 < amt /\ amt <= owedAmount f
       /\ Friends db !! id = Some f
       /\ (post_friend_repay now id b db).1
          = appended db id (set_owed (owedAmount f - amt) now f)
              (owedEntry db now id f repay amt (owedAmount f - amt) nt).
Proof.
  rewrite <- run_fst. destruct b as [amt nt sm].
  destruct (Friends db !! id) as [f|] eqn:Hf.
  - rewrite (post_friend_repay_run _ _ _ _ _ _ _ Hf).
    destruct amt as [|a]; [left; reflexivity|].
    destruct (a <=? 0) eqn:Ha; [left; reflexivity|].
    destruct (owedAmount f - a <? 0) eqn:Ho; [left; reflexivity|].
    right. exists f, a, (noteOr nt "Repayment"). cbv zeta. cbn [fst].
    repeat split; lia.
  - left. unfold run, post_friend_repay, bind, Friend_findById, reads.
    rewrite Hf. reflexivity.
Qed.

(* ===================================================================== *)
(** ** Structure of the reachable databases *)
(* ===================================================================== *)








Lemma map_id_replaceDoc (t' : Transaction) (txs : list Transaction) :
  List.map _id (replaceDoc t' txs) = List.map _id txs.
Proof.
  unfold replaceDoc. induction txs as [|u txs IH]; [reflexivity|].
  cbn [List.map]. rewrite IH. f_equal.
  destruct (hasId (_id t') u) eqn:Hu; [|reflexivity].
  apply bool_decide_eq_true_1 in Hu. symmetry. exact Hu.
Qed.

Lemma NoDup_map_filter (p : Transaction -> bool) (txs : list Transaction) :
  List.NoDup (List.map _id txs) -> List.NoDup (List.map _id (List.filter p txs)).
Proof.
  induction txs as [|u txs IH]; intros Hnd; [constructor|].
  cbn [List.map] in Hnd. inversion Hnd as [|x l Hnotin Hnd']; subst.
  cbn [List.filter]. destruct (p u); [|apply IH; exact Hnd'].
  cbn [List.map]. constructor; [|apply IH; exact Hnd'].
  intros Hin. apply Hnotin.
  apply List.in_map_iff in Hin as [v [Hv Hin]].
  apply List.filter_In in Hin as [Hin _].
  rewrite <- Hv. apply List.in_map. exact Hin.
Qed.

Lemma In_replaceDoc (t' u : Transaction) (txs : list Transaction) :
  In u (replaceDoc t' txs) ->
  u = t' /\ (exists v, In v txs /\ _id v = _id t') \/ In u txs.
Proof.
  unfold replaceDoc. intros Hin.
  apply List.in_map_iff in Hin as [v [Hv Hin]].
  destruct (hasId (_id t') v) eqn:Hid.
  - left. split; [symmetry; exact Hv|]. exists v. split; [exact Hin|].
    apply bool_decide_eq_true_1 in Hid. exact Hid.
  - right. subst u. exact Hin.
Qed.

Lemma amendedFrom_same (t t' : Transaction) :
  amendedFrom t t' -> _id t' = _id t /\ friend t' = friend t /\ type t' = type t.
Proof.
  intros [v [r ->]]. destruct r; repeat split.
Qed.

(** Writing a friend that exists keeps the database well formed. *)
Lemma wellFormed_friend_update (db : Db) (id : Id) (f f' : Friend) :
  wellFormed db -> Friends db !! id = Some f ->
  wellFormed (mkDb (<[id := f']> (Friends db)) (Transactions db) (nextId db)).
Proof.
  intros [[Hff Hft] [Hu Ho]] Hf. split; [split|split].
  - intros j g. cbn [Friends nextId]. rewrite lookup_insert.
    case_decide as Hj; [subst j; intros _; exact (Hff id f Hf)|apply Hff].
  - exact Hft.
  - exact Hu.
  - intros t Ht. cbn [Friends Transactions] in *. rewrite lookup_insert.
    case_decide; [eexists; reflexivity|apply Ho; exact Ht].
Qed.

Lemma wellFormed_appended (db : Db) (fid : Id) (f f' : Friend) (t : Transaction) :
  wellFormed db -> Friends db !! fid = Some f ->
  _id t = nextId db -> friend t = fid ->
  wellFormed (appended db fid f' t).
Proof.
  intros [[Hff Hft] [Hu Ho]] Hf Hid Hfr. unfold appended.
  split; [split|split].
  - intros j g. cbn [Friends nextId]. rewrite lookup_insert.
    case_decide as Hj.
    + subst j. intros _. specialize (Hff fid f Hf). lia.
    + intros Hg. specialize (Hff j g Hg). lia.
  - intros u Hu'. cbn [Transactions nextId] in *.
    apply List.in_app_or in Hu' as [Hu'|[<-|[]]].
    + specialize (Hft u Hu'). lia.
    + lia.
  - unfold idsUnique in *. cbn [Transactions].
    rewrite List.map_app. cbn [List.map].
    rewrite <- (List.rev_involutive (List.map _id (Transactions db) ++ [_id t])).
    apply List.NoDup_rev. rewrite List.rev_app_distr. cbn [List.rev app].
    constructor.
    + rewrite <- List.in_rev. intros Hin.
      apply List.in_map_iff in Hin as [v [Hv Hin]].
      specialize (Hft v Hin). lia.
    + apply List.NoDup_rev. exact Hu.
  - intros u Hu'. cbn [Friends Transactions] in *. rewrite lookup_insert.
    case_decide as Hj; [eexists; reflexivity|].
    apply List.in_app_or in Hu' as [Hu'|[<-|[]]]; [apply Ho; exact Hu'|].
    congruence.
Qed.

Lemma is_Some_alter (upd : Friend -> Friend) (i j : Id) (m : gmap Id Friend) :
  is_Some (alter upd i m !! j) <-> is_Some (m !! j).
Proof.
  rewrite lookup_alter. case_decide as Hij; [|reflexivity].
  rewrite fmap_is_Some. subst. reflexivity.
Qed.

Lemma wellFormed_ledgerChanged (db : Db) (now : Time) (fid : Id)
    (txs : list Transaction) :
  wellFormed db ->
  List.NoDup (List.map _id txs) ->
  (forall u, In u txs -> (_id u < nextId db)%nat
                         /\ exists v, In v (Transactions db) /\ friend v = friend u) ->
  wellFormed (ledgerChanged db now fid txs).
Proof.
  intros [[Hff Hft] [Hu Ho]] Hnd Hin. unfold ledgerChanged.
  split; [split|split].
  - intros j g. cbn [Friends nextId]. intros Hg.
    assert (Hs : is_Some (Friends db !! j)).
    { apply (is_Some_alter (set_owed (ledgerNet fid txs) now) fid). eauto. }
    destruct Hs as [g' Hg']. exact (Hff j g' Hg').
  - intros u Hu'. cbn [Transactions nextId] in *. apply Hin. exact Hu'.
  - exact Hnd.
  - intros u Hu'. cbn [Friends Transactions] in *.
    apply is_Some_alter. destruct (Hin u Hu') as [_ [v [Hv Hfr]]].
    rewrite <- Hfr. apply Ho. exact Hv.
Qed.

Lemma wellFormed_amended (db : Db) (now : Time) (id : Id) (t t' : Transaction) :
  wellFormed db ->
  List.find (hasId id) (Transactions db) = Some t -> amendedFrom t t' ->
  wellFormed (ledgerChanged db now (friend t) (replaceDoc t' (Transactions db))).
Proof.
  intros Hwf Hfind Ham.
  destruct (find_hasId _ _ _ Hfind) as [Hid Hin].
  destruct (amendedFrom_same _ _ Ham) as (Hid' & Hfr' & _).
  pose proof Hwf as [[Hff Hft] [Hu Ho]].
  apply wellFormed_ledgerChanged; [exact Hwf| |].
  - rewrite map_id_replaceDoc. exact Hu.
  - intros u Hu'. apply In_replaceDoc in Hu' as [[-> _]|Hu'].
    + split; [rewrite Hid'; apply Hft; exact Hin|].
      exists t. split; [exact Hin|congruence].
    + split; [apply Hft; exact Hu'|]. exists u. split; [exact Hu'|reflexivity].
Qed.

Lemma wellFormed_deleted (db : Db) (now : Time) (fid id : Id) :
  wellFormed db ->
  wellFormed (ledgerChanged db now fid (withoutDoc id (Transactions db))).
Proof.
  intros Hwf. pose proof Hwf as [[Hff Hft] [Hu Ho]].
  apply wellFormed_ledgerChanged; [exact Hwf| |].
  - apply NoDup_map_filter. exact Hu.
  - intros u Hu'. apply List.filter_In in Hu' as [Hu' _].
    split; [apply Hft; exact Hu'|]. exists u. split; [exact Hu'|reflexivity].
Qed.

Lemma wellFormed_cascade (db : Db) (id : Id) :
  wellFormed db ->
  wellFormed (mkDb (delete id (Friends db))
                (List.filter (fun u => negb (bool_decide (friend u = id)))
                   (Transactions db))
                (nextId db)).
Proof.
  intros [[Hff Hft] [Hu Ho]]. split; [split|split].
  - intros j g. cbn [Friends nextId]. rewrite lookup_delete.
    case_decide; [discriminate|apply Hff].
  - intros u Hu'. cbn [Transactions nextId] in *.
    apply List.filter_In in Hu' as [Hu' _]. apply Hft. exact Hu'.
  - apply NoDup_map_filter. exact Hu.
  - intros u Hu'. cbn [Friends Transactions] in *.
    apply List.filter_In in Hu' as [Hu' Hne].
    apply negb_true_iff, bool_decide_eq_false_1 in Hne.
    rewrite lookup_delete_ne by congruence. apply Ho. exact Hu'.
Qed.

Lemma wellFormed_new_friend (db : Db) (fr : Friend) :
  wellFormed db ->
  wellFormed (mkDb (<[nextId db := fr]> (Friends db)) (Transactions db)
                (S (nextId db))).
Proof.
  intros [[Hff Hft] [Hu Ho]]. split; [split|split].
  - intros j g. cbn [Friends nextId]. rewrite lookup_insert.
    case_decide as Hj; [subst j; lia|].
    intros Hg. specialize (Hff j g Hg). lia.
  - intros u Hu'. cbn [Transactions nextId] in *. specialize (Hft u Hu'). lia.
  - exact Hu.
  - intros u Hu'. cbn [Friends Transactions] in *. rewrite lookup_insert.
    case_decide; [eexists; reflexivity|apply Ho; exact Hu'].
Qed.

Lemma wellFormed_empty : wellFormed emptyDb.
Proof.
  split; [split|split].
  - intros j g Hg. cbn in Hg. rewrite lookup_empty in Hg. discriminate.
  - intros u [].
  - constructor.
  - intros u [].
Qed.

(** Every request keeps the database well formed. *)
Lemma serve_wellFormed (blank : string -> bool) (env : Env) (provider : Provider)
    (now : Time) (r : Request) (db : Db) :
  wellFormed db -> wellFormed (serve blank env provider now r db).
Proof.
  intros Hwf. destruct r as [b|id v|id v|later id b|later id b|later id b|id
                             |b|id b|id|id b|id b]; cbn [serve].
  - destruct (post_friends_cases now b db) as [->|[fr [-> _]]];
      [exact Hwf|apply wellFormed_new_friend; exact Hwf].
  - destruct (patch_saved_cases id v db) as [->|(f & x & _ & Hf & ->)];
      [exact Hwf|eapply wellFormed_friend_update; eassumption].
  - destruct (patch_balance_cases now id v db) as [->|(f & Hf & ->)];
      [exact Hwf|eapply wellFormed_friend_update; eassumption].
  - destruct (post_friends_deduct_cases env provider now later id b db)
      as [->|(f & amt & _ & _ & Hf & ->)]; [exact Hwf|].
    eapply wellFormed_appended; try eassumption; reflexivity.
  - destruct (post_friends_deduct_awaited_cases env provider now later id b db)
      as [->|(f & amt & _ & _ & Hf & ->)]; [exact Hwf|].
    eapply wellFormed_appended; try eassumption; reflexivity.
  - destruct (post_send_cases blank env provider now later id b db)
      as [->|(f & amt & _ & _ & Hf & ->)]; [exact Hwf|].
    eapply wellFormed_appended; try eassumption; reflexivity.
  - destruct (delete_friends_cases id db) as [->|(f & _ & ->)];
      [exact Hwf|apply wellFormed_cascade; exact Hwf].
  - destruct (post_loans_cases env provider now b db)
      as [->|(fid & f & amt & _ & _ & _ & Hf & ->)]; [exact Hwf|].
    rewrite loanRecorded_appended.
    eapply wellFormed_appended; try eassumption; reflexivity.
  - destruct (patch_loans_cases now id b db) as [->|(t & t' & Hfind & Ham & ->)];
      [exact Hwf|eapply wellFormed_amended; eassumption].
  - destruct (delete_loans_cases now id db) as [->|(t & _ & ->)];
      [exact Hwf|apply wellFormed_deleted; exact Hwf].
  - destruct (post_friend_loan_cases env provider now id b db)
      as [->|(f & amt & nt & _ & _ & Hf & ->)]; [exact Hwf|].
    eapply wellFormed_appended; try eassumption; reflexivity.
  - destruct (post_friend_repay_cases now id b db)
      as [->|(f & amt & nt & _ & _ & _ & Hf & ->)]; [exact Hwf|].
    eapply wellFormed_appended; try eassumption; reflexivity.
Qed.

(* ===================================================================== *)
(** ** The owed amounts of the reachable databases *)
(* ===================================================================== *)











(** In every database the server can reach from the empty one, ids in use
    are below the next fresh id, no two ledger entries share an id, and
    every ledger entry belongs to a friend that exists: transactions never
    outlive their friend. *)
Theorem reachable_wellFormed (blank : string -> bool) (env : Env) (db : Db) :
  reachable blank env db ->
  idsFresh db /\ idsUnique db /\ noOrphans db.
Proof.
  induction 1 as [|db provider now r Hreach IH].
  - exact wellFormed_empty.
  - apply serve_wellFormed. exact IH.
Qed.


Lemma reachable_serveAll (blank : string -> bool) (env : Env)
    (provider : Provider) (rs : list (Time * Request)) (db : Db) :
  reachable blank env db -> reachable blank env (serveAll blank env provider rs db).
Proof.
  revert db. induction rs as [|q rs IH]; intros db Hdb; [exact Hdb|].
  unfold serveAll. cbn [foldl]. apply IH. apply reachable_serve. exact Hdb.
Defined.

Lemma scenario_reachable :
  reachable neverBlank envDebitDefault dbScenarioAmend.
Proof.
  replace dbScenarioAmend
    with (serveAll neverBlank envDebitDefault deliveringProvider scenarioRequests
            emptyDb)
    by (vm_compute; reflexivity).
  apply reachable_serveAll. apply reachable_empty.
Defined.

(** The database of the scenario, reached by four requests, is well
    formed. *)
Lemma reachable_wellFormed_witness :
  reachable neverBlank envDebitDefault dbScenarioAmend
  /\ idsFresh dbScenarioAmend /\ idsUnique dbScenarioAmend
  /\ noOrphans dbScenarioAmend.
Proof.
  split; [exact scenario_reachable|].
  exact (reachable_wellFormed neverBlank envDebitDefault dbScenarioAmend
           scenario_reachable).
Defined.


(** [POST /api/send/:friendId] is the deduct route under another path: for
    every request and every database the two leave the same database and
    give the same answer; they reject the same requests, and on a valid
    one the entry and the new balance are those of the deduct route. *)
Theorem send_is_deduct (blank : string -> bool) (env : Env) (provider : Provider)
    (now later : Time) (fid : Id) (b : Debit.body) (db : Db) :
  (runDetaching (post_send blank env provider now later fid b) db).1
  = (runDetaching (post_friends_deduct env provider now later fid b) db).1
  /\ (forall blank', (runDetaching (post_send blank env provider now later fid b) db).1
                     = (runDetaching (post_send blank' env provider now later fid b) db).1).
Proof.
  split; [apply post_send_agrees|].
  intros blank'. rewrite !post_send_agrees. reflexivity.
Qed.

(* ===================================================================== *)
(** ** Phone numbers and the background send *)
(* ===================================================================== *)

Lemma digitsOnly_allDigits (s : string) : allDigits (digitsOnly s) = true.
Proof.
  induction s as [|c s IH]; [reflexivity|].
  cbn [digitsOnly]. destruct (isDigit c) eqn:Hc; [|exact IH].
  cbn [allDigits]. rewrite Hc, IH. reflexivity.
Qed.

Lemma digitsOnly_fixed (s : string) : allDigits s = true -> digitsOnly s = s.
Proof.
  induction s as [|c s IH]; [reflexivity|].
  cbn [allDigits digitsOnly]. intros H. apply andb_prop in H as [Hc Hs].
  rewrite Hc, (IH Hs). reflexivity.
Qed.

Lemma digitsOnly_length (s : string) :
  (String.length (digitsOnly s) <= String.length s)%nat.
Proof.
  induction s as [|c s IH]; [reflexivity|].
  cbn [digitsOnly]. destruct (isDigit c); cbn [String.length]; lia.
Qed.

Lemma digitsOnly_empty (s : string) : digitsOnly s = "" <-> noDigit s = true.
Proof.
  induction s as [|c s IH]; [split; reflexivity|].
  cbn [digitsOnly noDigit]. destruct (isDigit c); cbn [negb andb].
  - split; discriminate.
  - exact IH.
Qed.

Lemma normalizePhone_digitsOnly (to : string) : normalizePhone to = digitsOnly to.
Proof.
  unfold normalizePhone. destruct (String.eqb_spec to "") as [->|_]; reflexivity.
Qed.

(** [normalizePhone] keeps exactly the decimal digits of its argument, in
    order: its result holds only digits, normalising twice changes
    nothing, a number that already holds only digits is returned as it
    is, the result is never longer, and it is empty exactly when the
    argument holds no digit. *)
Theorem normalizePhone_keeps_digits (to : string) :
  allDigits (normalizePhone to) = true
  /\ normalizePhone (normalizePhone to) = normalizePhone to
  /\ (allDigits to = true -> normalizePhone to = to)
  /\ (String.length (normalizePhone to) <= String.length to)%nat
  /\ (normalizePhone to = "" <-> noDigit to = true)
  /\ (forall a b, normalizePhone (a ++ b) = (normalizePhone a ++ normalizePhone b)%string).
Proof.
  rewrite !normalizePhone_digitsOnly.
  split; [apply digitsOnly_allDigits|].
  split; [apply digitsOnly_fixed, digitsOnly_allDigits|].
  split; [apply digitsOnly_fixed|].
  split; [apply digitsOnly_length|].
  split; [apply digitsOnly_empty|].
  intros a b. rewrite !normalizePhone_digitsOnly.
  induction a as [|c a IH]; [reflexivity|].
  simpl. destruct (isDigit c); simpl; rewrite IH; reflexivity.
Qed.

(** [sendUltraMsgOnce] reports success only when instance and token are
    configured and the provider accepted a message addressed to the
    non-empty, digits-only form of the recipient. Without configuration,
    or for a recipient without any digit, it fails the same way whatever
    the provider would answer; and the background wrapper logs ["ok"]
    exactly on success. *)
Theorem sendUltraMsgOnce_outcomes (env : Env) (provider : Provider) (to : string)
    (bodyText : MessageBody) :
  (forall data, sendUltraMsgOnce env provider to bodyText = SendOk data ->
     truthy (ULTRAMSG_INSTANCE env) = true /\ truthy (ULTRAMSG_TOKEN env) = true
     /\ normalizePhone to <> "" /\ allDigits (normalizePhone to) = true
     /\ provider (mkOutbound (normalizePhone to) bodyText) = Delivered data)
  /\ (truthy (ULTRAMSG_INSTANCE env) = false \/ truthy (ULTRAMSG_TOKEN env) = false ->
      forall p, sendUltraMsgOnce env p to bodyText
                = SendFailed "ultramsg_not_configured")
  /\ (truthy (ULTRAMSG_INSTANCE env) = true -> truthy (ULTRAMSG_TOKEN env) = true ->
      noDigit to = true ->
      forall p, sendUltraMsgOnce env p to bodyText = SendFailed "invalid_phone")
  /\ ((exists data, sendUltraMsgOnce env provider to bodyText = SendOk data)
      -> sendUltraMsgFireAndForget env provider to bodyText = "ok").
Proof.
  split; [|split; [|split]].
  - intros data. unfold sendUltraMsgOnce.
    destruct (truthy (ULTRAMSG_INSTANCE env)); [|discriminate].
    destruct (truthy (ULTRAMSG_TOKEN env)); [|discriminate].
    cbn [negb orb].
    destruct (String.eqb_spec (normalizePhone to) "") as [He|Hne]; [discriminate|].
    destruct (provider _) as [d|e] eqn:Hp; [|discriminate].
    intros [= <-]. repeat split; try assumption.
    rewrite normalizePhone_digitsOnly. apply digitsOnly_allDigits.
  - intros Hcfg p. unfold sendUltraMsgOnce.
    destruct Hcfg as [-> | ->]; rewrite ?orb_true_r; reflexivity.
  - intros Hi Ht Hnd p. unfold sendUltraMsgOnce. rewrite Hi, Ht. cbn [negb orb].
    rewrite normalizePhone_digitsOnly.
    apply digitsOnly_empty in Hnd. rewrite Hnd. reflexivity.
  - intros [data Hok]. unfold sendUltraMsgFireAndForget. rewrite Hok. reflexivity.
Qed.

(* ===================================================================== *)
(** ** The overview *)
(* ===================================================================== *)

Lemma foldl_rows (acc : Z) (rows : list Overview.row) :
  foldl (fun a f => a + Overview.owedAmount f) acc rows = acc + sumRows rows.
Proof.
  revert acc. induction rows as [|r rows IH]; intros acc; cbn [foldl sumRows foldr].
  - lia.
  - rewrite IH. unfold sumRows. lia.
Qed.

Lemma sumRows_perm (l1 l2 : list Overview.row) :
  Permutation l1 l2 -> sumRows l1 = sumRows l2.
Proof.
  induction 1 as [|x l1 l2 _ IH|x y l|l1 l2 l3 _ IH1 _ IH2];
    cbn [sumRows foldr] in *; unfold sumRows in *; lia.
Qed.

Lemma sumRows_overviewRow (l : list (Id * Friend)) :
  sumRows (overviewRow <$> l) = foldr (fun p acc => owedAmount p.2 + acc) 0 l.
Proof.
  induction l as [|p l IH]; [reflexivity|].
  cbn [fmap list_fmap sumRows foldr] in *. unfold sumRows in IH. rewrite IH.
  reflexivity.
Qed.

Lemma nameAsc_total (x y : Overview.row) :
  nameAsc x y = true \/ nameAsc y x = true.
Proof. apply String.leb_total. Qed.

(** [GET /api/loans/overview] never writes. It lists every friend exactly
    once, with the stored name, owed amount and number, in ascending order
    of name, and [overall] is the sum of the stored owed amounts of all
    friends (0 when there is none). *)
Theorem overview_lists_every_friend (db : Db) :
  exists rows,
    get_loans_overview db = (db, inr (Overview.mk rows (totalOwed db)))
    /\ Permutation rows (overviewRow <$> map_to_list (Friends db))
    /\ (forall r, In r rows <->
                  exists id f, Friends db !! id = Some f /\ r = overviewRow (id, f))
    /\ base.NoDup (Overview._id <$> rows)
    /\ length rows = size (Friends db)
    /\ Sorted (fun x y => String.leb (Overview.name x) (Overview.name y) = true) rows
    /\ (Friends db = ∅ -> rows = [] /\ totalOwed db = 0).
Proof.
  set (rows := sortBy nameAsc (overviewRow <$> map_to_list (Friends db))).
  assert (Hp : Permutation rows (overviewRow <$> map_to_list (Friends db)))
    by apply sortBy_perm.
  exists rows. split.
  { unfold get_loans_overview, bind, Friend_findSortedByName, reads, ret.
    fold rows. rewrite foldl_rows, (sumRows_perm _ _ Hp), sumRows_overviewRow.
    reflexivity. }
  split; [exact Hp|]. split.
  { intros r. rewrite <- list_elem_of_In, Hp, list_elem_of_fmap. split.
    - intros [[id f] [-> Hin]]. apply elem_of_map_to_list in Hin. eauto.
    - intros (id & f & Hf & ->). exists (id, f). split; [reflexivity|].
      apply elem_of_map_to_list. exact Hf. }
  split.
  { rewrite Hp, <- list_fmap_compose.
    replace (Overview._id ∘ overviewRow) with (@fst Id Friend) by reflexivity.
    apply NoDup_fst_map_to_list. }
  split.
  { rewrite Hp, length_fmap. apply length_map_to_list. }
  split; [apply sortBy_sorted, nameAsc_total|].
  intros He. subst rows. unfold totalOwed. rewrite He, map_to_list_empty.
  split; reflexivity.
Qed.






(* ===================================================================== *)
(** ** The loan ledger of one friend *)
(* ===================================================================== *)

Lemma sumCond_perm (ty : TxType) (l1 l2 : list Transaction) :
  Permutation l1 l2 -> sumCond ty l1 = sumCond ty l2.
Proof.
  induction 1 as [|x l1 l2 _ IH|x y l|l1 l2 l3 _ IH1 _ IH2];
    rewrite ?sumCond_cons in *; lia.
Qed.

Lemma matchStage_spec (fid : Id) (t : Transaction) :
  matchStage fid t = true <-> friend t = fid /\ (type t = loan \/ type t = repay).
Proof.
  unfold matchStage. rewrite andb_true_iff, orb_true_iff.
  rewrite !bool_decide_eq_true. reflexivity.
Qed.

(** [GET /api/loans/friend/:friendId] never writes. For an unknown friend
    it answers 404. Otherwise it answers the friend, the stored owed
    amount, and exactly the friend's loan and repay entries, each once,
    none followed by one created later; and when the stored owed amount
    agrees with the ledger, it is the loans minus the repayments of the
    entries shown. *)
Theorem friend_loans_shown (friendId : Id) (db : Db) :
  (Friends db !! friendId = None ->
   get_loans_friend friendId db = (db, inl FriendNotFound))
  /\ (forall f, Friends db !! friendId = Some f ->
      exists txs,
        get_loans_friend friendId db
        = (db, inr (FriendLoans.mk f (owedAmount f) txs))
        /\ Permutation txs (List.filter (matchStage friendId) (Transactions db))
        /\ (forall t, In t txs <->
                      In t (Transactions db) /\ friend t = friendId
                      /\ (type t = loan \/ type t = repay))
        /\ Sorted (fun a b => createdAt b <= createdAt a) txs
        /\ (owedConsistent friendId db ->
            owedAmount f = sumCond loan txs - sumCond repay txs)).
Proof.
  split.
  - intros Hf. unfold get_loans_friend, bind, Friend_findById, reads.
    rewrite Hf. reflexivity.
  - intros f Hf.
    set (txs := sortBy createdDesc
                  (List.filter (matchStage friendId) (Transactions db))).
    assert (Hp : Permutation txs
                   (List.filter (matchStage friendId) (Transactions db)))
      by apply sortBy_perm.
    exists txs. split.
    { unfold get_loans_friend, bind, Friend_findById, reads, ret.
      rewrite Hf. reflexivity. }
    split; [exact Hp|]. split.
    { intros t. split.
      - intros Hin. apply (Permutation_in _ Hp) in Hin.
        apply List.filter_In in Hin as [Hin Hm].
        apply matchStage_spec in Hm. tauto.
      - intros (Hin & Hfr & Hty). apply (Permutation_in _ (Permutation_sym Hp)).
        apply List.filter_In. split; [exact Hin|].
        apply matchStage_spec. tauto. }
    split.
    { eapply Sorted_weaken;
        [|apply (sortBy_sorted createdDesc (Zleb_total_desc createdAt))].
      intros a b Hab. unfold createdDesc in Hab. lia. }
    intros Hc. rewrite (Hc f Hf).
    rewrite !(sumCond_perm _ _ _ Hp), !sumCond_matchStage by auto.
    reflexivity.
Qed.

(* ===================================================================== *)
(** ** Reminders *)
(* ===================================================================== *)

(** The two reminder routes of the loan router never write. The entry
    reminder answers 404 for an unknown entry, 404 for an entry whose
    friend is gone, and only then 503 when messaging is not configured;
    the friend reminder answers 404, then 503. When configured, the
    provider is handed the friend's number as stored and the entry's
    current amount, creation date and reason (for the friend reminder:
    the stored owed amount, whatever its sign, the clock and no reason);
    its payload is answered with 200 and its error with 502. *)
Theorem reminders_read_only (env : Env) (provider : Provider) (now : Time)
    (id : Id) (db : Db) :
  (post_loans_id_notify env provider id db).1 = db
  /\ (post_loans_friend_notify env provider now id db).1 = db
  /\ (List.find (hasId id) (Transactions db) = None ->
      (post_loans_id_notify env provider id db).2 = inl LoanNotFound)
  /\ (forall ln, List.find (hasId id) (Transactions db) = Some ln ->
        match Friends db !! friend ln with
        | None => (post_loans_id_notify env provider id db).2 = inl FriendNotFound
        | Some f =>
          (post_loans_id_notify env provider id db).2
          = if truthy (ULTRAMSG_INSTANCE env) && truthy (ULTRAMSG_TOKEN env)
            then inr (notifyAnswer
                        (provider (mkOutbound (whatsapp f)
                           (ExactLoanReminder (name f) (amount ln) (createdAt ln)
                              (reason ln)))))
            else inl NotificationUnavailable
        end)
  /\ match Friends db !! id with
     | None => (post_loans_friend_notify env provider now id db).2 = inl FriendNotFound
     | Some f =>
       (post_loans_friend_notify env provider now id db).2
       = if truthy (ULTRAMSG_INSTANCE env) && truthy (ULTRAMSG_TOKEN env)
         then inr (notifyAnswer
                     (provider (mkOutbound (whatsapp f)
                        (ExactLoanReminder (name f) (owedAmount f) now ""))))
         else inl NotificationUnavailable
     end.
Proof.
  unfold post_loans_id_notify, post_loans_friend_notify, bind,
    Transaction_findById, Friend_findById, reads, rejectIf, respond, ret,
    sendWhatsAppMessage.
  split; [|split; [|split; [|split]]].
  - destruct (List.find (hasId id) (Transactions db)) as [ln|]; [|reflexivity].
    destruct (Friends db !! friend ln) as [f|]; [|reflexivity].
    destruct (truthy (ULTRAMSG_INSTANCE env)), (truthy (ULTRAMSG_TOKEN env));
      reflexivity.
  - destruct (Friends db !! id) as [f|]; [|reflexivity].
    destruct (truthy (ULTRAMSG_INSTANCE env)), (truthy (ULTRAMSG_TOKEN env));
      reflexivity.
  - intros ->. reflexivity.
  - intros ln ->.
    destruct (Friends db !! friend ln) as [f|]; [|reflexivity].
    destruct (truthy (ULTRAMSG_INSTANCE env)), (truthy (ULTRAMSG_TOKEN env));
      reflexivity.
  - destruct (Friends db !! id) as [f|]; [|reflexivity].
    destruct (truthy (ULTRAMSG_INSTANCE env)), (truthy (ULTRAMSG_TOKEN env));
      reflexivity.
Qed.

(* ===================================================================== *)
(** ** Direct edits and new friends *)
(* ===================================================================== *)

(** The two direct edits. Without a [savedAmount] the saved-amount route
    answers 400, and both routes answer 404 for an unknown friend, the
    database unchanged. Otherwise the saved-amount route changes the
    friend's [savedAmount] and nothing else (not even [lastUpdatedAt]); the
    balance route sets [totalBalance] and [lastUpdatedAt] and nothing else;
    neither writes a ledger entry or touches another friend. A debit of
    [a] after the balance was set to [v] leaves exactly [v - a]. *)
Theorem direct_edits_effect (env : Env) (provider : Provider) (now later : Time)
    (id : Id) (db : Db) :
  patch_friends_id_saved id None db
  = (db, inl (mkResponse 400 (BError "savedAmount required")))
  /\ (Friends db !! id = None -> forall v,
        patch_friends_id_saved id (Some v) db = (db, inl FriendNotFound)
        /\ patch_friends_id_balance now id v db = (db, inl FriendNotFound))
  /\ (forall f v, Friends db !! id = Some f ->
        patch_friends_id_saved id (Some v) db
        = (mkDb (<[id := mkFriend (name f) (whatsapp f) v (totalBalance f)
                           (owedAmount f) (lastUpdatedAt f)]> (Friends db))
             (Transactions db) (nextId db),
           inr (mkFriend (name f) (whatsapp f) v (totalBalance f)
                  (owedAmount f) (lastUpdatedAt f)))
        /\ patch_friends_id_balance now id v db
           = (mkDb (<[id := mkFriend (name f) (whatsapp f) (savedAmount f) v
                              (owedAmount f) now]> (Friends db))
                (Transactions db) (nextId db),
              inr (mkFriend (name f) (whatsapp f) (savedAmount f) v
                     (owedAmount f) now))
        /\ (forall a nt, 0 < a ->
              totalBalance <$>
                Friends (runDetaching
                           (post_friends_deduct env provider later later id
                              (Debit.mk (Num a) nt))
                           (patch_friends_id_balance now id v db).1).1.1 !! id
              = Some (v - a))).
Proof.
  split; [reflexivity|]. split.
  - intros Hf v.
    unfold patch_friends_id_saved, patch_friends_id_balance, bind,
      Friend_findById, reads.
    rewrite Hf. split; reflexivity.
  - intros f v Hf.
    assert (Hb : patch_friends_id_balance now id v db
                 = (mkDb (<[id := set_balance v now f]> (Friends db))
                      (Transactions db) (nextId db),
                    inr (set_balance v now f))).
    { unfold patch_friends_id_balance, bind, Friend_findById, reads.
      rewrite Hf. reflexivity. }
    split; [|split; [exact Hb|]].
    + unfold patch_friends_id_saved, bind, Friend_findById, reads.
      rewrite Hf. reflexivity.
    + intros a nt Ha. rewrite Hb. cbn [fst].
      edestruct (post_friends_deduct_run env provider later later id a nt
                   (mkDb (<[id := set_balance v now f]> (Friends db))
                      (Transactions db) (nextId db))
                   (set_balance v now f)) as [l ->];
        [cbn [Friends]; apply lookup_insert_eq|exact Ha|].
      cbn [fst]. unfold debited. cbn [Friends].
      rewrite lookup_insert_eq. reflexivity.
Qed.

(** [POST /api/friends]. Without a name or a number it answers 400 and
    writes nothing. Otherwise the new friend gets the next fresh id, owes
    0 and has no entry written; its saved amount is the one given, else
    the balance given, else 0; its balance is the one given unless that is
    absent or 0, in which case it is the saved amount, so that a friend is
    never created with balance 0 and a saved amount other than 0. When
    the ids in use are below the next fresh id, no existing friend is
    overwritten. *)
Theorem new_friend_defaults (now : Time) (b : NewFriend.body) (db : Db) :
  (String.eqb (NewFriend.name b) "" || String.eqb (NewFriend.whatsapp b) "" = true ->
   post_friends now b db
   = (db, inl (mkResponse 400 (BError "name and whatsapp required"))))
  /\ (String.eqb (NewFriend.name b) "" || String.eqb (NewFriend.whatsapp b) "" = false ->
      exists fr,
        post_friends now b db
        = (mkDb (<[nextId db := fr]> (Friends db)) (Transactions db) (S (nextId db)),
           inr (mkResponse 200 (BFriend fr)))
        /\ name fr = NewFriend.name b /\ whatsapp fr = NewFriend.whatsapp b
        /\ owedAmount fr = 0 /\ lastUpdatedAt fr = now
        /\ savedAmount fr
           = match NewFriend.savedAmount b, NewFriend.totalBalance b with
             | Some s, _ => s
             | None, Some t => t
             | None, None => 0
             end
        /\ (forall t, NewFriend.totalBalance b = Some t -> t <> 0 ->
                      totalBalance fr = t)
        /\ (NewFriend.totalBalance b = None \/ NewFriend.totalBalance b = Some 0 ->
            totalBalance fr = savedAmount fr)
        /\ (totalBalance fr = 0 -> savedAmount fr = 0)
        /\ (idsFresh db -> forall j g, Friends db !! j = Some g ->
              <[nextId db := fr]> (Friends db) !! j = Some g)).
Proof.
  split.
  - intros Hbad. unfold post_friends, bind, rejectIf. rewrite Hbad. reflexivity.
  - intros Hok. eexists. split.
    { unfold post_friends, bind, rejectIf. rewrite Hok. reflexivity. }
    destruct b as [nm wa tb sa]. cbn [NewFriend.name NewFriend.whatsapp
      NewFriend.totalBalance NewFriend.savedAmount name whatsapp owedAmount
      lastUpdatedAt savedAmount totalBalance].
    do 4 (split; [reflexivity|]).
    split; [destruct sa, tb; reflexivity|].
    split.
    { intros t -> Ht. cbn. destruct (Z.eqb_spec t 0); [contradiction|reflexivity]. }
    split.
    { intros [-> | ->]; reflexivity. }
    split.
    { unfold numOr0. destruct tb as [t|], sa as [s|]; cbn;
        try destruct (Z.eqb_spec t 0); intros; subst; lia. }
    intros [Hff _] j g Hg. rewrite lookup_insert_ne; [exact Hg|].
    specialize (Hff j g Hg). lia.
Qed.

(* ===================================================================== *)
(** ** What a request leaves alone *)
(* ===================================================================== *)

Lemma reachable_wf (blank : string -> bool) (env : Env) (db : Db) :
  reachable blank env db -> wellFormed db.
Proof.
  induction 1 as [|db provider now r Hreach IH].
  - exact wellFormed_empty.
  - apply serve_wellFormed. exact IH.
Qed.

Lemma lookup_insert_cases (m : gmap Id Friend) (i id : Id) (g' f' : Friend) :
  <[i := g']> m !! id = Some f' ->
  (i = id /\ f' = g') \/ (i <> id /\ m !! id = Some f').
Proof.
  rewrite lookup_insert. case_decide as H; [intros [= <-]; left|right]; auto.
Qed.

Lemma lookup_alter_cases (m : gmap Id Friend) (upd : Friend -> Friend)
    (i id : Id) (f f' : Friend) :
  m !! id = Some f -> alter upd i m !! id = Some f' ->
  (i = id /\ f' = upd f) \/ f' = f.
Proof.
  intros Hf. rewrite lookup_alter. case_decide as H.
  - subst i. rewrite Hf. cbn. intros [= <-]. left. auto.
  - rewrite Hf. intros [= <-]. right. reflexivity.
Qed.

Ltac frame_done :=
  repeat split; cbn; intros; try reflexivity; try congruence; try exact I; auto.

Ltac frame_insert Hf Hf' Hg :=
  apply lookup_insert_cases in Hf' as [[-> ->]|[_ Hf']];
  [rewrite Hg in Hf; injection Hf as <-
  |rewrite Hf in Hf'; injection Hf' as <-];
  frame_done.

(** In a database the server can reach, one request changes little of a
    friend that exists before and after it: never the name or the number;
    the saved amount only if it is the saved-amount edit of that friend;
    the balance only if it is the balance edit or a debit of that friend;
    the owed amount only if it is one of the five loan routes. So debits
    never move what is owed, loans never move the balance, and nothing but
    the explicit edit moves the saved amount. *)
Theorem request_frame (blank : string -> bool) (env : Env) (provider : Provider)
    (now : Time) (r : Request) (db : Db) (id : Id) (f f' : Friend) :
  reachable blank env db ->
  Friends db !! id = Some f ->
  Friends (serve blank env provider now r db) !! id = Some f' ->
  name f' = name f /\ whatsapp f' = whatsapp f
  /\ (savedAmount f' <> savedAmount f -> editsSaved r id)
  /\ (totalBalance f' <> totalBalance f -> movesBalance r id)
  /\ (owedAmount f' <> owedAmount f -> movesOwed r).
Proof.
  intros Hreach Hf Hf'. pose proof (reachable_wf _ _ _ Hreach) as [[Hff _] _].
  assert (Hsame : forall (P : Prop),
            Friends db !! id = Some f' ->
            name f' = name f /\ whatsapp f' = whatsapp f
            /\ (savedAmount f' <> savedAmount f -> P)
            /\ (totalBalance f' <> totalBalance f -> movesBalance r id)
            /\ (owedAmount f' <> owedAmount f -> movesOwed r)).
  { intros P H. rewrite Hf in H. injection H as <-. frame_done. }
  destruct r as [b|i v|i v|later i b|later i b|later i b|i
                |b|i b|i|i b|i b]; cbn [serve] in Hf'.
  - destruct (post_friends_cases now b db) as [E|[fr [E _]]];
      rewrite E in Hf'; [apply Hsame; exact Hf'|].
    cbn [Friends] in Hf'. apply lookup_insert_cases in Hf' as [[<- _]|[_ Hf']].
    + specialize (Hff _ _ Hf). lia.
    + apply Hsame; exact Hf'.
  - destruct (patch_saved_cases i v db) as [E|(g & x & -> & Hg & E)];
      rewrite E in Hf'; [apply Hsame; exact Hf'|].
    cbn [Friends] in Hf'. frame_insert Hf Hf' Hg.
  - destruct (patch_balance_cases now i v db) as [E|(g & Hg & E)];
      rewrite E in Hf'; [apply Hsame; exact Hf'|].
    cbn [Friends] in Hf'. frame_insert Hf Hf' Hg.
  - destruct (post_friends_deduct_cases env provider now later i b db)
      as [E|(g & amt & _ & _ & Hg & E)];
      rewrite E in Hf'; [apply Hsame; exact Hf'|].
    unfold appended in Hf'. cbn [Friends] in Hf'. frame_insert Hf Hf' Hg.
  - destruct (post_friends_deduct_awaited_cases env provider now later i b db)
      as [E|(g & amt & _ & _ & Hg & E)];
      rewrite E in Hf'; [apply Hsame; exact Hf'|].
    unfold appended in Hf'. cbn [Friends] in Hf'. frame_insert Hf Hf' Hg.
  - destruct (post_send_cases blank env provider now later i b db)
      as [E|(g & amt & _ & _ & Hg & E)];
      rewrite E in Hf'; [apply Hsame; exact Hf'|].
    unfold appended in Hf'. cbn [Friends] in Hf'. frame_insert Hf Hf' Hg.
  - destruct (delete_friends_cases i db) as [E|(g & Hg & E)];
      rewrite E in Hf'; [apply Hsame; exact Hf'|].
    cbn [Friends] in Hf'. rewrite lookup_delete in Hf'.
    case_decide; [discriminate|]. apply Hsame; exact Hf'.
  - destruct (post_loans_cases env provider now b db)
      as [E|(fid & g & amt & _ & _ & _ & Hg & E)];
      rewrite E in Hf'; [apply Hsame; exact Hf'|].
    unfold loanRecorded, recomputed in Hf'. cbn [Friends] in Hf'.
    frame_insert Hf Hf' Hg.
  - destruct (patch_loans_cases now i b db) as [E|(t & t' & _ & _ & E)];
      rewrite E in Hf'; [apply Hsame; exact Hf'|].
    unfold ledgerChanged in Hf'. cbn [Friends] in Hf'.
    apply (lookup_alter_cases _ _ _ _ _ _ Hf) in Hf' as [[_ ->]| ->]; frame_done.
  - destruct (delete_loans_cases now i db) as [E|(t & _ & E)];
      rewrite E in Hf'; [apply Hsame; exact Hf'|].
    unfold ledgerChanged in Hf'. cbn [Friends] in Hf'.
    apply (lookup_alter_cases _ _ _ _ _ _ Hf) in Hf' as [[_ ->]| ->]; frame_done.
  - destruct (post_friend_loan_cases env provider now i b db)
      as [E|(g & amt & nt & _ & _ & Hg & E)];
      rewrite E in Hf'; [apply Hsame; exact Hf'|].
    unfold appended in Hf'. cbn [Friends] in Hf'. frame_insert Hf Hf' Hg.
  - destruct (post_friend_repay_cases now i b db)
      as [E|(g & amt & nt & _ & _ & _ & Hg & E)];
      rewrite E in Hf'; [apply Hsame; exact Hf'|].
    unfold appended in Hf'. cbn [Friends] in Hf'. frame_insert Hf Hf' Hg.
Qed.

(** After a debit of 30 the friend of the scenario still owes 200 and has
    the saved amount 0; the balance moved, by a debit. *)
Lemma request_frame_witness :
  reachable neverBlank envDebitDefault dbScenarioAmend
  /\ Friends dbScenarioAmend !! 0%nat
     = Some (mkFriend "A" "+911234567890" 0 0 200 4000)
  /\ Friends (serve neverBlank envDebitDefault deliveringProvider 5000
                (POST_friends_deduct 5001 0%nat (Debit.mk (Num 30) None))
                dbScenarioAmend) !! 0%nat
     = Some (mkFriend "A" "+911234567890" 0 (-30) 200 5000)
  /\ (owedAmount (mkFriend "A" "+911234567890" 0 (-30) 200 5000)
      <> owedAmount (mkFriend "A" "+911234567890" 0 0 200 4000) ->
      movesOwed (POST_friends_deduct 5001 0%nat (Debit.mk (Num 30) None))).
Proof.
  split; [exact scenario_reachable|]. split; [reflexivity|].
  split; [vm_compute; reflexivity|].
  exact (proj2 (proj2 (proj2 (proj2
    (request_frame neverBlank envDebitDefault deliveringProvider 5000
       (POST_friends_deduct 5001 0%nat (Debit.mk (Num 30) None))
       dbScenarioAmend 0%nat
       (mkFriend "A" "+911234567890" 0 0 200 4000)
       (mkFriend "A" "+911234567890" 0 (-30) 200 5000)
       scenario_reachable eq_refl eq_refl))))).
Defined.

(* ===================================================================== *)
(** ** Amend and delete touch one entry *)
(* ===================================================================== *)

Lemma hasId_other (id : Id) (l : list Transaction) :
  (forall u, In u l -> _id u <> id) ->
  List.map (fun u => if hasId id u then u else u) l = l
  /\ List.filter (fun u => negb (hasId id u)) l = l
  /\ List.find (hasId id) l = None.
Proof.
  intros Hne. induction l as [|u l IH]; [repeat split|].
  destruct IH as (IH1 & IH2 & IH3); [intros v Hv; apply Hne; right; exact Hv|].
  assert (Hu : hasId id u = false).
  { apply bool_decide_eq_false_2. apply Hne. left. reflexivity. }
  cbn [List.map List.filter List.find]. rewrite Hu, IH1, IH2, IH3.
  repeat split.
Qed.

Lemma replaceDoc_other (t' : Transaction) (l : list Transaction) :
  (forall u, In u l -> _id u <> _id t') -> replaceDoc t' l = l.
Proof.
  intros Hne. unfold replaceDoc. induction l as [|u l IH]; [reflexivity|].
  cbn [List.map]. rewrite IH by (intros v Hv; apply Hne; right; exact Hv).
  replace (hasId (_id t') u) with false; [reflexivity|].
  symmetry. apply bool_decide_eq_false_2. apply Hne. left. reflexivity.
Qed.

Lemma unique_split (txs : list Transaction) (t : Transaction) :
  List.NoDup (List.map _id txs) -> In t txs ->
  exists l1 l2, txs = l1 ++ t :: l2
    /\ (forall u, In u l1 -> _id u <> _id t)
    /\ (forall u, In u l2 -> _id u <> _id t).
Proof.
  intros Hnd Hin. apply List.in_split in Hin as (l1 & l2 & ->).
  exists l1, l2. split; [reflexivity|].
  rewrite List.map_app in Hnd. cbn [List.map] in Hnd.
  pose proof (List.NoDup_remove_2 _ _ _ Hnd) as Hnot.
  split; intros u Hu Heq; apply Hnot; apply List.in_or_app;
    [left|right]; rewrite <- Heq; apply List.in_map; exact Hu.
Qed.

Lemma amendedFrom_fields (t t' : Transaction) :
  amendedFrom t t' -> sameButAmountReason t t'.
Proof. intros [v [r ->]]. destruct r; repeat split. Qed.

(** In a database the server can reach, the entry with id [id] occurs
    once. [DELETE /api/loans/:id] removes that entry and keeps the others
    in their order; [PATCH /api/loans/:id], whatever its body, keeps every
    other entry and the position of this one, and changes at most its
    amount and its reason: the friend, the type, the note, the dates and
    the two balance snapshots recorded at creation stay as they were. *)
Theorem amend_delete_touch_one_entry (blank : string -> bool) (env : Env)
    (now : Time) (id : Id) (t : Transaction) (db : Db) :
  reachable blank env db ->
  List.find (hasId id) (Transactions db) = Some t ->
  exists l1 l2,
    Transactions db = l1 ++ t :: l2
    /\ Transactions (run (delete_loans_id now id) db).1 = l1 ++ l2
    /\ (forall b, exists t',
          Transactions (run (patch_loans_id now id b) db).1 = l1 ++ t' :: l2
          /\ sameButAmountReason t t').
Proof.
  intros Hreach Hfind.
  pose proof (reachable_wf _ _ _ Hreach) as [_ [Hu _]].
  destruct (find_hasId _ _ _ Hfind) as [Hid Hin].
  destruct (unique_split _ _ Hu Hin) as (l1 & l2 & Htxs & H1 & H2).
  rewrite Hid in H1, H2.
  exists l1, l2. split; [exact Htxs|]. split.
  - rewrite (delete_loans_run _ _ _ _ Hfind). cbn [fst ledgerChanged Transactions].
    unfold withoutDoc. rewrite Htxs, List.filter_app. cbn [List.filter].
    destruct (hasId_other id l1 H1) as (_ & -> & _).
    destruct (hasId_other id l2 H2) as (_ & -> & _).
    replace (hasId id t) with true
      by (symmetry; apply bool_decide_eq_true_2; exact Hid).
    reflexivity.
  - intros b. rewrite run_fst.
    destruct (patch_loans_cases now id b db) as [->|(t0 & t' & Hfind' & Ham & ->)].
    + exists t. split; [exact Htxs|]. repeat split.
    + rewrite Hfind in Hfind'. injection Hfind' as <-.
      exists t'. split; [|apply amendedFrom_fields; exact Ham].
      destruct (amendedFrom_same _ _ Ham) as (Hid' & _).
      cbn [ledgerChanged Transactions].
      rewrite Htxs. unfold replaceDoc. rewrite List.map_app. cbn [List.map].
      fold (replaceDoc t' l1) (replaceDoc t' l2).
      rewrite !replaceDoc_other by (rewrite Hid', Hid; assumption).
      replace (hasId (_id t') t) with true
        by (symmetry; apply bool_decide_eq_true_2; congruence).
      reflexivity.
Qed.

(** The loan entry of the scenario, amended to 400: deleting it leaves the
    repayment alone in the ledger. *)
Lemma amend_delete_touch_one_entry_witness :
  reachable neverBlank envDebitDefault dbScenarioAmend
  /\ List.find (hasId 1%nat) (Transactions dbScenarioAmend)
     = Some (mkTransaction 1%nat 0%nat loan 400 "" None 2000 (Some 0) (Some 500) 2000)
  /\ exists l1 l2,
       Transactions dbScenarioAmend
       = l1 ++ mkTransaction 1%nat 0%nat loan 400 "" None 2000 (Some 0) (Some 500)
                 2000 :: l2
       /\ Transactions (run (delete_loans_id 5000 1%nat) dbScenarioAmend).1
          = l1 ++ l2.
Proof.
  split; [exact scenario_reachable|]. split; [reflexivity|].
  destruct (amend_delete_touch_one_entry neverBlank envDebitDefault 5000 1%nat
              (mkTransaction 1%nat 0%nat loan 400 "" None 2000 (Some 0) (Some 500) 2000)
              dbScenarioAmend scenario_reachable eq_refl)
    as (l1 & l2 & H1 & H2 & _).
  exists l1, l2. split; assumption.
Defined.
